(** * wger: the Ingredient model and the core views

    A shallow embedding of
    - [wger/nutrition/models/ingredient.py] (class [Ingredient]: [clean],
      [save], [__eq__], [__hash__], [set_author], [energy_kilojoule],
      [fetch_ingredient_from_off]) and
    - [wger/core/views/misc.py] (the views [index] and [demo_entries], the
      week days of [dashboard], and [FeedbackClass]),
    followed by the properties proved about them.

    Python values are modelled as follows.
    - [int] is [Z].
    - [decimal.Decimal] is a coefficient and an exponent (the number
      [coef * 10 ^ expo]).  A product, sum or difference is the exact one,
      with the exponent Python gives it, brought into the default context:
      rounded half-even to 28 significant digits, [decimal.Overflow] raised
      above the largest exponent, a result below the smallest exponent
      rounded to that exponent.  Comparisons are exact.  An [int] operand
      of a mixed operation is the decimal with exponent 0, which prints like
      the [int].  Decimals are finite (no field stores a NaN or an infinity)
      and a zero has no sign: Python's negative zero, which in [clean] can
      only come from three negative amounts below [1E-1000026], prints with
      a sign that is not shown here.
    - [float] is a mantissa and a binary exponent; a conversion or a product
      is the exact one rounded to the nearest binary64 number, ties to even.
    - [None] for a nullable attribute is [None] of an [option].
    - a raised exception is the [Raise] case of [Result]. *)

From Stdlib Require Import ZArith QArith Qpower Lia Bool List.
From Stdlib Require Import Ascii String DecimalString Floats.
From stdpp Require Import base option gmap strings.

Set Warnings "-register-all,-inexact-float,-clear-no-such-hyp".

Local Open Scope string_scope.
Local Open Scope Z_scope.

(** ** Results of calls that may raise *)

Inductive Result (E A : Type) : Type :=
| Ok (a : A)
| Raise (e : E).
Arguments Ok {E A} a.
Arguments Raise {E A} e.

Definition rbind {E A B} (m : Result E A) (k : A -> Result E B) : Result E B :=
  match m with
  | Ok a => k a
  | Raise e => Raise e
  end.

Notation "'try!' x <- m ; k" := (rbind m (fun x => k))
  (at level 10, x name, m at level 100, k at level 200).

(** ** decimal.Decimal *)

Record Decimal : Type := mkDecimal { coef : Z; expo : Z }.

(** [Decimal(n)] for an [int] [n]. *)
Definition of_int (n : Z) : Decimal := mkDecimal n 0.

(** The rational number a decimal stands for. *)
Definition Dvalue (d : Decimal) : Q := inject_Z (coef d) * Qpower (10 # 1) (expo d).

(** The coefficient of [d] written with the (smaller) exponent [e]. *)
Definition rescale (d : Decimal) (e : Z) : Z := coef d * 10 ^ (expo d - e).

(** The exact product, sum and difference, with the exponent the result
    ideally has; an operation of Python rounds them into the context (see
    [Decimal_mul], [Decimal_add], [Decimal_sub] below). *)
Definition Dmul (a b : Decimal) : Decimal :=
  mkDecimal (coef a * coef b) (expo a + expo b).

Definition Dadd (a b : Decimal) : Decimal :=
  let e := Z.min (expo a) (expo b) in
  mkDecimal (rescale a e + rescale b e) e.

Definition Dsub (a b : Decimal) : Decimal :=
  let e := Z.min (expo a) (expo b) in
  mkDecimal (rescale a e - rescale b e) e.

(** [a < b] and [a > b]: comparison of the numbers, whatever the exponents. *)
Definition Dltb (a b : Decimal) : bool :=
  let e := Z.min (expo a) (expo b) in
  rescale a e <? rescale b e.

Definition Dgtb (a b : Decimal) : bool := Dltb b a.

(** [a == b] on decimals is equality of the numbers: [Decimal('5.0') ==
    Decimal('5.000')]. *)
Definition Deqb (a b : Decimal) : bool :=
  let e := Z.min (expo a) (expo b) in
  rescale a e =? rescale b e.

(** Truth value of a decimal: false exactly for zero. *)
Definition Dtruthy (d : Decimal) : bool := negb (coef d =? 0).

(** The integer nearest to [n / d], a tie going to the even one
    ([ROUND_HALF_EVEN], and the rounding of binary64); for [0 <= n] and
    [0 < d]. *)
Definition div_half_even (n d : Z) : Z :=
  let q := n / d in
  let r := n mod d in
  if 2 * r <? d then q
  else if d <? 2 * r then q + 1
  else if Z.even q then q else q + 1.

(** ** The decimal context

    The default context of the [decimal] module: 28 digits, exponents from
    -999999 to 999999, rounding half-even; of the signals only
    [InvalidOperation], [DivisionByZero] and [Overflow] raise. *)

Definition context_prec : Z := 28.
Definition context_Emax : Z := 999999.
Definition context_Emin : Z := -999999.
Definition context_Etiny : Z := context_Emin - context_prec + 1.
Definition context_Etop : Z := context_Emax - context_prec + 1.

(** The number of decimal digits of a positive number, counted by dividing
    by ten; a number has no more decimal digits than binary ones. *)
Fixpoint count_digits (fuel : nat) (n : Z) : Z :=
  match fuel with
  | O => 1
  | S fuel' => if n <? 10 then 1 else 1 + count_digits fuel' (n / 10)
  end.

Definition digits (n : Z) : Z := count_digits (Z.to_nat (Z.log2 n)) n.

(** [Decimal._fix]: the result of an operation brought into the context.
    [None] stands for [decimal.Overflow] raised.  A zero keeps an exponent
    within the context's range; a coefficient of more than 28 digits, or
    an exponent below [Etiny], is rounded half-even; a rounding that carries
    into a 29th digit drops the last digit. *)
Definition context_fix (d : Decimal) : option Decimal :=
  if coef d =? 0 then
    Some (mkDecimal 0 (Z.min (Z.max (expo d) context_Etiny) context_Emax))
  else
    let len := digits (Z.abs (coef d)) in
    let exp_min := len + expo d - context_prec in
    if context_Etop <? exp_min then None
    else
      let exp_min := Z.max exp_min context_Etiny in
      if expo d <? exp_min then
        let coeff := div_half_even (Z.abs (coef d)) (10 ^ (exp_min - expo d)) in
        let rounded :=
          if 10 ^ context_prec <=? coeff
          then (coeff / 10, exp_min + 1)
          else (coeff, exp_min) in
        if context_Etop <? snd rounded then None
        else Some (mkDecimal (Z.sgn (coef d) * fst rounded) (snd rounded))
      else Some d.

(** [a * b], [a + b] and [a - b] on decimals, in the context. *)
Definition Decimal_mul (a b : Decimal) : option Decimal := context_fix (Dmul a b).

Definition Decimal_add (a b : Decimal) : option Decimal := context_fix (Dadd a b).

Definition Decimal_sub (a b : Decimal) : option Decimal := context_fix (Dsub a b).

(** ** str() of an int and of a Decimal *)

Definition str_int (n : Z) : string := NilZero.string_of_int (Z.to_int n).

Fixpoint zeros (n : nat) : string :=
  match n with
  | O => EmptyString
  | S k => String "0"%char (zeros k)
  end.

(** The ["%+d"] conversion. *)
Definition str_signed (n : Z) : string :=
  if n <? 0 then str_int n else "+" ++ str_int n.

(** [Decimal.__str__] for a finite number: plain notation when the exponent
    is at most 0 and there are fewer than six leading zeros after the point,
    scientific notation otherwise. *)
Definition str_Decimal (d : Decimal) : string :=
  let sign := if coef d <? 0 then "-" else "" in
  let digits := str_int (Z.abs (coef d)) in
  let len := Z.of_nat (String.length digits) in
  let leftdigits := expo d + len in
  let dotplace :=
    if (expo d <=? 0) && (-6 <? leftdigits) then leftdigits else 1 in
  let intpart :=
    if dotplace <=? 0 then "0"
    else if len <=? dotplace then digits ++ zeros (Z.to_nat (dotplace - len))
    else substring 0 (Z.to_nat dotplace) digits in
  let fracpart :=
    if dotplace <=? 0 then "." ++ zeros (Z.to_nat (- dotplace)) ++ digits
    else if len <=? dotplace then ""
    else "." ++ substring (Z.to_nat dotplace) (Z.to_nat (len - dotplace)) digits in
  let exp :=
    if leftdigits =? dotplace then ""
    else "E" ++ str_signed (leftdigits - dotplace) in
  sign ++ intpart ++ fracpart ++ exp.

(** ** The model *)

(** Modelled from the spec: the approval status that [Ingredient] inherits
    from [AbstractSubmissionModel] ([wger/utils/models.py], not part of the
    sources at hand): an enumeration pending / accepted / declined. *)
Inductive Status : Type :=
| STATUS_PENDING
| STATUS_ACCEPTED
| STATUS_DECLINED.

(** The attributes of an [Ingredient] that the embedded methods read or
    write.  [pk] (alias [id]) is [None] until the row is stored;
    [license_author] comes from [AbstractLicenseModel] and is nullable. *)
Record Ingredient : Type := mkIngredient {
  pk : option Z;
  uuid : string;
  name : string;
  energy : option Z;
  protein : option Decimal;
  carbohydrates : option Decimal;
  carbohydrates_sugar : option Decimal;
  fat : option Decimal;
  fat_saturated : option Decimal;
  fibres : option Decimal;
  sodium : option Decimal;
  code : option string;
  status : Status;
  license_author : option string
}.

(** [ENERGY_APPROXIMATION = 15], the tolerance in percent. *)
Definition ENERGY_APPROXIMATION : Z := 15.

Inductive Nutrient : Type := Protein | Carbohydrates | Fat.

(** Modelled from the spec: the table [ENERGY_FACTOR] of
    [wger/nutrition/consts.py] (not part of the sources at hand), read at
    [ENERGY_FACTOR[nutrient]['kg']]: 4 kcal per gram of protein, 4 per gram
    of carbohydrates, 9 per gram of fat, as the docstring of [clean] also
    says. *)
Definition ENERGY_FACTOR_kg (n : Nutrient) : Z :=
  match n with
  | Protein => 4
  | Carbohydrates => 4
  | Fat => 9
  end.

(** [if x:] on a nullable decimal attribute: false for [None] and for 0. *)
Definition truthy_decimal (x : option Decimal) : bool :=
  match x with
  | Some d => Dtruthy d
  | None => false
  end.

(** [if x:] on a nullable int attribute. *)
Definition truthy_int (x : option Z) : bool :=
  match x with
  | Some n => negb (n =? 0)
  | None => false
  end.

(** [if x:] / [not x] on a nullable string attribute. *)
Definition truthy_str (x : option string) : bool :=
  match x with
  | Some s => negb (String.eqb s "")
  | None => false
  end.

(** The energy of one macronutrient in [clean]: 0 unless the attribute is
    truthy, the amount times the factor otherwise. *)
Definition energy_of (x : option Decimal) (n : Nutrient) : option Decimal :=
  match x with
  | Some d =>
      if Dtruthy d then Decimal_mul d (of_int (ENERGY_FACTOR_kg n)) else Some (of_int 0)
  | None => Some (of_int 0)
  end.

(** [energy_calculated] of [clean]; [None] when one of the products or sums
    raises [decimal.Overflow]. *)
Definition energy_calculated (self : Ingredient) : option Decimal :=
  match energy_of (protein self) Protein with
  | Some energy_protein =>
      match energy_of (carbohydrates self) Carbohydrates with
      | Some energy_carbohydrates =>
          match energy_of (fat self) Fat with
          | Some energy_fat =>
              match Decimal_add energy_protein energy_carbohydrates with
              | Some sum => Decimal_add sum energy_fat
              | None => None
              end
          | None => None
          end
      | None => None
      end
  | None => None
  end.

(** [self.ENERGY_APPROXIMATION / Decimal(100.0)]: the quotient of 15 by 100
    is the decimal 0.15, coefficient 15 and exponent -2. *)
Definition approximation_ratio : Decimal := mkDecimal ENERGY_APPROXIMATION (-2).

(** [self.energy * (1 + ratio)] and [self.energy * (1 - ratio)] *)
Definition energy_upper (e : Z) : option Decimal :=
  match Decimal_add (of_int 1) approximation_ratio with
  | Some factor => Decimal_mul (of_int e) factor
  | None => None
  end.

Definition energy_lower (e : Z) : option Decimal :=
  match Decimal_sub (of_int 1) approximation_ratio with
  | Some factor => Decimal_mul (of_int e) factor
  | None => None
  end.

Inductive ValidationError : Type :=
| MkValidationError (message : string).

(** What [clean] raises: the validation error, or the [decimal.Overflow] of
    its arithmetic. *)
Inductive CleanException : Type :=
| Invalid (error : ValidationError)
| DecimalOverflow.

(** The message of the validation error of [clean] (the untranslated text;
    [gettext_lazy] is the identity here). *)
Definition energy_message (e : Z) (calculated : Decimal) : string :=
  "The total energy (" ++ str_int e ++
  "kcal) is not the approximate sum of the energy provided by protein, carbohydrates and fat ("
  ++ str_Decimal calculated ++ "kcal +/-" ++ str_int ENERGY_APPROXIMATION ++ "%)".

(** [Ingredient.clean]: the energy of the macronutrients is computed first;
    the comparison is made only [if self.energy:], that is for an energy
    that is neither [None] nor 0. *)
Definition clean (self : Ingredient) : Result CleanException unit :=
  match energy_calculated self with
  | None => Raise DecimalOverflow
  | Some calculated =>
      match energy self with
      | Some e =>
          if truthy_int (Some e) then
            match energy_upper e with
            | Some upper =>
                match energy_lower e with
                | Some lower =>
                    if negb (Dgtb upper calculated && Dgtb calculated lower)
                    then Raise (Invalid (MkValidationError (energy_message e calculated)))
                    else Ok tt
                | None => Raise DecimalOverflow
                end
            | None => Raise DecimalOverflow
            end
          else Ok tt
      | None => Ok tt
      end
  end.

(** A record with the given energy and macronutrients, everything else
    blank. *)
Definition candidate (e : option Z) (p c f : option Decimal) : Ingredient :=
  {| pk := None; uuid := ""; name := ""; energy := e;
     protein := p; carbohydrates := c; carbohydrates_sugar := None;
     fat := f; fat_saturated := None; fibres := None; sodium := None;
     code := None; status := STATUS_PENDING; license_author := None |}.

(** ** Python values: payloads, keyword dictionaries, attribute values *)

(** JSON numbers with a fraction are carried by their exact decimal value:
    the code below only tests such values for truth and for equality. *)
Inductive PyVal : Type :=
| PNone
| PBool (b : bool)
| PInt (n : Z)
| PDec (d : Decimal)
| PStr (s : string)
| PList (items : list PyVal)
| PDict (items : list (string * PyVal)).

Inductive Exception : Type :=
| KeyError
| TypeError
| OverflowError
| InvalidOperation
| OtherException (kind : string).

Fixpoint dict_get (items : list (string * PyVal)) (k : string) : option PyVal :=
  match items with
  | [] => None
  | (k', v) :: rest => if String.eqb k' k then Some v else dict_get rest k
  end.

(** [v[k]] for a string key: [KeyError] on a dictionary without the key,
    [TypeError] on a value that is no dictionary. *)
Definition py_getitem (v : PyVal) (k : string) : Result Exception PyVal :=
  match v with
  | PDict items =>
      match dict_get items k with
      | Some x => Ok x
      | None => Raise KeyError
      end
  | _ => Raise TypeError
  end.

(** Truth value. *)
Definition py_truthy (v : PyVal) : bool :=
  match v with
  | PNone => false
  | PBool b => b
  | PInt n => negb (n =? 0)
  | PDec d => Dtruthy d
  | PStr s => negb (String.eqb s "")
  | PList items => match items with [] => false | _ => true end
  | PDict items => match items with [] => false | _ => true end
  end.

(** The number a bool, int or decimal stands for in a comparison. *)
Definition numeric (v : PyVal) : option Decimal :=
  match v with
  | PBool b => Some (of_int (Z.b2z b))
  | PInt n => Some (of_int n)
  | PDec d => Some d
  | _ => None
  end.

(** [a == b]: numbers by value, strings and [None] by identity of content,
    lists element by element, dictionaries key by key. *)
Fixpoint py_eqb (a b : PyVal) {struct a} : bool :=
  match numeric a, numeric b with
  | Some x, Some y => Deqb x y
  | Some _, None | None, Some _ => false
  | None, None =>
      match a, b with
      | PNone, PNone => true
      | PStr s, PStr t => String.eqb s t
      | PList xs, PList ys =>
          (fix all2 (xs ys : list PyVal) : bool :=
             match xs, ys with
             | [], [] => true
             | x :: xs', y :: ys' => py_eqb x y && all2 xs' ys'
             | _, _ => false
             end) xs ys
      | PDict xs, PDict ys =>
          (length xs =? length ys)%nat &&
          (fix sub (xs : list (string * PyVal)) : bool :=
             match xs with
             | [] => true
             | (k, v) :: rest =>
                 match dict_get ys k with
                 | Some v' => py_eqb v v'
                 | None => false
                 end && sub rest
             end) xs
      | _, _ => false
      end
  end.

Definition py_ne (a b : PyVal) : bool := negb (py_eqb a b).

Definition of_decimal (x : option Decimal) : PyVal :=
  match x with Some d => PDec d | None => PNone end.

Definition of_integer (x : option Z) : PyVal :=
  match x with Some n => PInt n | None => PNone end.

Definition of_string (x : option string) : PyVal :=
  match x with Some s => PStr s | None => PNone end.

(** ** __eq__ and __hash__ *)

(** [getattr(self, i)] on an ingredient; [None] stands for the
    [AttributeError] of a name the instance does not have, as for
    ['creation_date'] (the date fields of the model are [created] and
    [last_update]). *)
Definition getattr (self : Ingredient) (i : string) : option PyVal :=
  if String.eqb i "pk" then Some (of_integer (pk self))
  else if String.eqb i "id" then Some (of_integer (pk self))
  else if String.eqb i "uuid" then Some (PStr (uuid self))
  else if String.eqb i "name" then Some (PStr (name self))
  else if String.eqb i "energy" then Some (of_integer (energy self))
  else if String.eqb i "protein" then Some (of_decimal (protein self))
  else if String.eqb i "carbohydrates" then Some (of_decimal (carbohydrates self))
  else if String.eqb i "carbohydrates_sugar" then Some (of_decimal (carbohydrates_sugar self))
  else if String.eqb i "fat" then Some (of_decimal (fat self))
  else if String.eqb i "fat_saturated" then Some (of_decimal (fat_saturated self))
  else if String.eqb i "fibres" then Some (of_decimal (fibres self))
  else if String.eqb i "sodium" then Some (of_decimal (sodium self))
  else if String.eqb i "code" then Some (of_string (code self))
  else if String.eqb i "license_author" then Some (of_string (license_author self))
  else None.

Definition hasattr (self : Ingredient) (i : string) : bool :=
  match getattr self i with Some _ => true | None => false end.

(** [getattr(self, i, None)] *)
Definition getattr_default (self : Ingredient) (i : string) : PyVal :=
  match getattr self i with Some v => v | None => PNone end.

(** The names [__eq__] loops over, in its order. *)
Definition compared_attributes : list string :=
  [ "carbohydrates"; "carbohydrates_sugar"; "creation_date"; "energy"; "fat";
    "fat_saturated"; "fibres"; "name"; "protein"; "sodium" ].

(** An object handed to [__eq__]: an instance of the class or anything
    else. *)
Inductive PyObject : Type :=
| IngredientObject (o : Ingredient)
| OtherObject (v : PyVal).

(** The loop of [__eq__], started with [equal]: [equal] becomes [False] at
    each name both sides have with different values. *)
Fixpoint eq_loop (self other : Ingredient) (names : list string) (equal : bool) : bool :=
  match names with
  | [] => equal
  | i :: rest =>
      let equal' :=
        if hasattr self i && hasattr other i
           && py_ne (getattr_default self i) (getattr_default other i)
        then false else equal in
      eq_loop self other rest equal'
  end.

(** [Ingredient.__eq__] *)
Definition __eq__ (self : Ingredient) (other : PyObject) : bool :=
  match other with
  | IngredientObject o => eq_loop self o compared_attributes true
  | OtherObject _ => false
  end.

(** [hash(n)] of an int on a 64-bit build: the absolute value modulo the
    Mersenne prime [2^61 - 1], with the sign, and -2 in place of -1. *)
Definition hash_int (n : Z) : Z :=
  let h := Z.sgn n * (Z.abs n mod (2 ^ 61 - 1)) in
  if h =? -1 then -2 else h.

(** ** The request, the cache, the mail and the store *)

(** What the code reads of [request.user] and of the request. *)
Record User : Type := mkUser {
  username : string;
  is_authenticated : bool;
  has_perm : string -> bool
}.

Record HttpRequest : Type := mkRequest {
  user : User;
  get_host : string
}.

(** One call of [mail.mail_admins]. *)
Record AdminMail : Type := mkAdminMail {
  subject : string;
  message : string;
  fail_silently : bool
}.

(** [s.split(':')[0]]: the part of [s] before its first colon, all of [s]
    when it has none. *)
Fixpoint split_colon_0 (s : string) : string :=
  match s with
  | EmptyString => EmptyString
  | String c rest =>
      if Ascii.eqb c ":"%char then EmptyString else String c (split_colon_0 rest)
  end.

Definition set_status (self : Ingredient) (v : Status) : Ingredient :=
  {| pk := pk self; uuid := uuid self; name := name self; energy := energy self;
     protein := protein self; carbohydrates := carbohydrates self;
     carbohydrates_sugar := carbohydrates_sugar self; fat := fat self;
     fat_saturated := fat_saturated self; fibres := fibres self;
     sodium := sodium self; code := code self; status := v;
     license_author := license_author self |}.

Definition set_license_author (self : Ingredient) (v : option string) : Ingredient :=
  {| pk := pk self; uuid := uuid self; name := name self; energy := energy self;
     protein := protein self; carbohydrates := carbohydrates self;
     carbohydrates_sugar := carbohydrates_sugar self; fat := fat self;
     fat_saturated := fat_saturated self; fibres := fibres self;
     sodium := sodium self; code := code self; status := status self;
     license_author := v |}.

Definition double_quote : string := String "034"%char EmptyString.

(** The body of the mail to the administrators. *)
Definition submission_message (who what : string) : string :=
  "The user " ++ who ++ " submitted a new ingredient " ++
  double_quote ++ what ++ double_quote ++ ".".

(** A view answers with a redirect or with a rendered page. *)
Inductive HttpResponse : Type :=
| HttpResponseRedirect (url : string)
| RenderedResponse (template : string).

Section Collaborators.

(** The state of the relational store and the values kept in the cache
    are opaque. *)
Variable Database : Type.
Variable CacheValue : Type.
Variable Language : Type.

Record World : Type := mkWorld {
  database : Database;
  cache : gmap string CacheValue;
  admin_mails : list AdminMail
}.

(** [cache.get(key)]: [None] is a miss. *)
Definition cache_get (key : string) (w : World) : option CacheValue :=
  cache w !! key.

(** [cache.delete(key)] *)
Definition cache_delete (key : string) (w : World) : World :=
  {| database := database w;
     cache := delete key (cache w);
     admin_mails := admin_mails w |}.

(** [models.Model.save]: stores the row, gives the instance its id, and may
    raise; whatever else it does to the store, the cache or the mail is
    left open. *)
Variable Model_save : Ingredient -> World -> Result Exception (Ingredient * World).

(** [cache_mapper.get_ingredient_key] of [wger/utils/cache.py]. *)
Variable get_ingredient_key : option Z -> string.

(** [Ingredient.save] *)
Definition save (self : Ingredient) (w : World) : Result Exception (Ingredient * World) :=
  try! r <- Model_save self w;
  Ok (fst r, cache_delete (get_ingredient_key (pk (fst r))) (snd r)).

(** Whether the mail backend delivers a mail. *)
Variable delivers : AdminMail -> bool.

(** [mail.mail_admins(subject, message, fail_silently)]: the call is
    recorded; a delivery failure raises unless [fail_silently]. *)
Definition mail_admins (subj msg : string) (silently : bool) (w : World)
  : Result Exception World :=
  let m := {| subject := subj; message := msg; fail_silently := silently |} in
  if delivers m || silently
  then Ok {| database := database w; cache := cache w;
             admin_mails := (admin_mails w ++ [m])%list |}
  else Raise (OtherException "SMTPException").

(** [Ingredient.set_author] *)
Definition set_author (self : Ingredient) (request : HttpRequest) (w : World)
  : Result Exception (Ingredient * World) :=
  if has_perm (user request) "nutrition.add_ingredient" then
    let self1 := set_status self STATUS_ACCEPTED in
    let self2 :=
      if negb (truthy_str (license_author self1))
      then set_license_author self1 (Some (split_colon_0 (get_host request)))
      else self1 in
    Ok (self2, w)
  else
    let self1 :=
      if negb (truthy_str (license_author self))
      then set_license_author self (Some (username (user request)))
      else self in
    let subj := "New user submitted ingredient" in
    let msg := submission_message (username (user request)) (name self1) in
    try! w' <- mail_admins subj msg true w;
    Ok (self1, w').

(** [hash(None)], a constant of the interpreter. *)
Variable hash_None : Z.

(** [Ingredient.__hash__]: [hash(self.pk)] *)
Definition __hash__ (self : Ingredient) : Z :=
  match pk self with
  | Some n => hash_int n
  | None => hash_None
  end.

(** [openfoodfacts.products.get_product]: the answer of the product
    database, or the exception of a failed call. *)
Variable get_product : string -> Result Exception PyVal.

(** [OFF_SEARCH_PRODUCT_FOUND] of [wger/utils/constants.py]. *)
Variable OFF_SEARCH_PRODUCT_FOUND : PyVal.

(** [load_language] of [wger/utils/language.py]: the language or the
    exception of the lookup, and the world as the lookup leaves it. *)
Variable load_language : PyVal -> World -> Result Exception Language * World.

(** [extract_info_from_off] of [wger/nutrition/off.py]: the keyword
    dictionary of the new ingredient, or an exception. *)
Variable extract_info_from_off : PyVal -> Language -> Result Exception PyVal.

(** The constructor [cls] applied to the keyword dictionary. *)
Variable Ingredient_init : PyVal -> Result Exception Ingredient.

(** The [try] block of [fetch_ingredient_from_off]: its outcome, and the
    world as it leaves it. *)
Definition extraction (product : PyVal) (w : World) : Result Exception PyVal * World :=
  match py_getitem product "lang" with
  | Raise e => (Raise e, w)
  | Ok lang =>
      match load_language lang w with
      | (Raise e, w') => (Raise e, w')
      | (Ok language, w') => (extract_info_from_off product language, w')
      end
  end.

(** [Ingredient.fetch_ingredient_from_off]: the ingredient created, or
    [None]. *)
Definition fetch_ingredient_from_off (barcode : string) (w : World)
  : Result Exception (option Ingredient * World) :=
  try! result <- get_product barcode;
  try! found <- py_getitem result "status";
  if py_ne found OFF_SEARCH_PRODUCT_FOUND then Ok (None, w) else
  try! product <- py_getitem result "product";
  match extraction product w with
  | (Raise KeyError, w1) => Ok (None, w1)
  | (Raise e, _) => Raise e
  | (Ok ingredient_data, w1) =>
      try! nm <- py_getitem ingredient_data "name";
      if negb (py_truthy nm) then Ok (None, w1) else
      try! cn <- py_getitem ingredient_data "common_name";
      if negb (py_truthy cn) then Ok (None, w1) else
      try! ingredient <- Ingredient_init ingredient_data;
      try! r <- save ingredient w1;
      Ok (Some (fst r), snd r)
  end.

(** [django.urls.reverse]: the URL registered under a name, or
    [NoReverseMatch]. *)
Variable reverse : string -> Result Exception string.

(** The view [index] *)
Definition index (request : HttpRequest) : Result Exception HttpResponse :=
  if is_authenticated (user request) then
    try! url <- reverse "core:dashboard";
    Ok (HttpResponseRedirect url)
  else
    try! url <- reverse "software:features";
    Ok (HttpResponseRedirect url).

End Collaborators.

Arguments mkWorld {Database CacheValue} database cache admin_mails.
Arguments database {Database CacheValue} w.
Arguments cache {Database CacheValue} w.
Arguments admin_mails {Database CacheValue} w.
Arguments cache_get {Database CacheValue} key w.
Arguments cache_delete {Database CacheValue} key w.
Arguments save {Database CacheValue} Model_save get_ingredient_key self w.
Arguments mail_admins {Database CacheValue} delivers subj msg silently w.
Arguments set_author {Database CacheValue} delivers self request w.
Arguments extraction {Database CacheValue Language}
  load_language extract_info_from_off product w.
Arguments fetch_ingredient_from_off {Database CacheValue Language}
  Model_save get_ingredient_key get_product OFF_SEARCH_PRODUCT_FOUND
  load_language extract_info_from_off Ingredient_init barcode w.

(** ** float and the kilojoule property *)

(** A finite binary64 number: [mant * 2 ^ fexp]. *)
Record Float : Type := mkFloat { mant : Z; fexp : Z }.

(** The number of bits of a natural number. *)
Definition bits (n : Z) : Z := if n =? 0 then 0 else Z.log2 n + 1.

(** The binary64 number nearest to [m * 2 ^ e]: the mantissa keeps 53 bits,
    fewer below the smallest normal exponent. *)
Definition round_binary64 (m e : Z) : Float :=
  let n := Z.abs m in
  let s := Z.max 0 (Z.max (bits n - 53) (-1074 - e)) in
  mkFloat (Z.sgn m * div_half_even n (2 ^ s)) (e + s).

(** Whether a rounded number is beyond the largest finite binary64. *)
Definition overflows (x : Float) : bool :=
  1024 <? bits (Z.abs (mant x)) + fexp x.

(** [float(n)] for an [int], as in [n * 4.184]: [OverflowError] for an int
    too large for a float. *)
Definition float_of_int (n : Z) : Result Exception Float :=
  let x := round_binary64 n 0 in
  if overflows x then Raise OverflowError else Ok x.

(** [a * b] on floats; [None] is an infinite product. *)
Definition float_mul (a b : Float) : option Float :=
  let x := round_binary64 (mant a * mant b) (fexp a + fexp b) in
  if overflows x then None else Some x.

(** The literal [4.184]: the binary64 number nearest to it,
    [0x1.0bc6a7ef9db23p+2]. *)
Definition float_4_184 : Float := mkFloat 4710765210229539 (-50).

(** [Decimal(x)] for a finite float is exact.  (Python writes the same
    number with the smallest coefficient; [quantize] only depends on the
    number.) *)
Definition Decimal_of_float (x : Float) : Decimal :=
  if 0 <=? fexp x then mkDecimal (mant x * 2 ^ fexp x) 0
  else mkDecimal (mant x * 5 ^ (- fexp x)) (fexp x).

(** [d.quantize(q)] in the default context: [d] rounded half-even to the
    exponent of [q]; [InvalidOperation] when the coefficient of the result
    would have more than 28 digits. *)
Definition quantize (d q : Decimal) : Result Exception Decimal :=
  let e := expo q in
  let c :=
    if e <=? expo d then coef d * 10 ^ (expo d - e)
    else Z.sgn (coef d) * div_half_even (Z.abs (coef d)) (10 ^ (e - expo d)) in
  if 10 ^ 28 <=? Z.abs c then Raise InvalidOperation else Ok (mkDecimal c e).

(** Modelled from the spec: the constant [TWOPLACES] of
    [wger/utils/constants.py] (not part of the sources at hand), the
    quantum of two decimal places, [Decimal('0.01')]. *)
Definition TWOPLACES : Decimal := mkDecimal 1 (-2).

(** The property [Ingredient.energy_kilojoule]; the [0] of the [else]
    branch is the int. *)
Definition energy_kilojoule (self : Ingredient) : Result Exception Decimal :=
  match energy self with
  | Some e =>
      if truthy_int (Some e) then
        try! x <- float_of_int e;
        match float_mul x float_4_184 with
        | Some y => quantize (Decimal_of_float y) TWOPLACES
        | None => Raise InvalidOperation
        end
      else Ok (of_int 0)
  | None => Ok (of_int 0)
  end.

(** [energy * 4.184] computed on decimals, without a float in between, then
    quantized: the value the property is meant to have. *)
Definition exact_kilojoule (e : Z) : Result Exception Decimal :=
  quantize (Dmul (of_int e) (mkDecimal 4184 (-3))) TWOPLACES.

Definition with_energy (e : option Z) : Ingredient := candidate e None None None.


(** ** The views of misc.py *)

(** A row of [DaysOfWeek], a training day with its weekdays, a workout with
    its days, as [dashboard] reads them. *)
Record DaysOfWeek : Type := mkDaysOfWeek { dow_id : Z; day_of_week : string }.

Record Day : Type := mkDay { description : string; day : list DaysOfWeek }.

Record Workout : Type := mkWorkout { day_set : list Day }.

(** What the views read of [request.user] besides the account: the mail
    address and the profile, which an anonymous visitor does not have. *)
Record UserProfile : Type := mkUserProfile { is_temporary : bool }.

Record SiteUser : Type := mkSiteUser {
  account : User;
  email : string;
  userprofile : option UserProfile
}.

(** The request of a view: the user, the session, the messages shown on the
    next page, and the users [create_demo_entries] was called for. *)
Record Visit : Type := mkVisit {
  visitor : SiteUser;
  session : gmap string PyVal;
  flashes : list string;
  demo_entries_for : list string
}.

Inductive FormClass : Type :=
| FeedbackAnonymousForm
| FeedbackRegisteredForm.

(** [request.user.userprofile.is_temporary], evaluated for authenticated
    users only; a user without profile raises. *)
Definition profile_is_temporary (u : SiteUser) : Result Exception bool :=
  match userprofile u with
  | Some p => Ok (is_temporary p)
  | None => Raise (OtherException "RelatedObjectDoesNotExist")
  end.

(** [request.session[key]] *)
Definition session_getitem (v : Visit) (key : string) : Result Exception PyVal :=
  match session v !! key with
  | Some x => Ok x
  | None => Raise KeyError
  end.

(** [messages.success(request, text)] *)
Definition messages_success (v : Visit) (text : string) : Visit :=
  {| visitor := visitor v; session := session v;
     flashes := (flashes v ++ [text])%list;
     demo_entries_for := demo_entries_for v |}.

Section Views.

(** [gettext], the URL table, the setting [ALLOW_GUEST_USERS], and of
    [wger/core/demo.py] and [django.contrib.auth] what the views use. *)
Variable gettext : string -> string.
Variable reverse : string -> Result Exception string.
Variable ALLOW_GUEST_USERS : bool.
Variable create_temporary_user : Visit -> SiteUser.
Variable login_session : gmap string PyVal -> SiteUser -> gmap string PyVal.

(** The inner loop of [dashboard] over the weekdays of one training day:
    [used_days[day_of_week.id] = day.description]. *)
Definition add_day (used : gmap Z string) (d : Day) : gmap Z string :=
  fold_left (fun used day_of_week => <[dow_id day_of_week := description d]> used)
    (day d) used.

(** [used_days] of [dashboard]: empty without a current workout. *)
Definition used_days (current_workout : option Workout) : gmap Z string :=
  match current_workout with
  | Some workout => fold_left add_day (day_set workout) ∅
  | None => ∅
  end.

(** One turn of the loop of [dashboard] over [DaysOfWeek.objects.all()]. *)
Definition week_day_step (used : gmap Z string)
    (week_day_result : list (string * string * bool)) (week : DaysOfWeek)
  : list (string * string * bool) :=
  let day_has_workout := false in
  let '(day_has_workout, week_day_result) :=
    match used !! dow_id week with
    | Some d =>
        (true, (week_day_result ++ [(gettext (day_of_week week), d, true)])%list)
    | None => (day_has_workout, week_day_result)
    end in
  if negb day_has_workout
  then (week_day_result ++ [(gettext (day_of_week week), gettext "Rest day", false)])%list
  else week_day_result.

(** [week_day_result] of [dashboard], the value of [context['weekdays']]. *)
Definition week_day_result (used : gmap Z string) (all : list DaysOfWeek)
  : list (string * string * bool) :=
  fold_left (week_day_step used) all [].

Definition weekdays (current_workout : option Workout) (all : list DaysOfWeek)
  : list (string * string * bool) :=
  week_day_result (used_days current_workout) all.

(** [django_login(request, user)]: the request gets the user, the session
    what the login writes into it. *)
Definition django_login (v : Visit) (u : SiteUser) : Visit :=
  {| visitor := u; session := login_session (session v) u;
     flashes := flashes v; demo_entries_for := demo_entries_for v |}.

(** [create_demo_entries(request.user)] of [wger/core/demo.py]: the call is
    recorded. *)
Definition create_demo_entries (v : Visit) : Visit :=
  {| visitor := visitor v; session := session v; flashes := flashes v;
     demo_entries_for :=
       (demo_entries_for v ++ [username (account (visitor v))])%list |}.

(** [request.session[key] = value] *)
Definition session_setitem (v : Visit) (key : string) (value : PyVal) : Visit :=
  {| visitor := visitor v; session := <[key := value]> (session v);
     flashes := flashes v; demo_entries_for := demo_entries_for v |}.

Definition demo_message : string :=
  "We have created sample workout, workout schedules, weight logs, (body) weight and nutrition plan entries so you can better see what  this site can do. Feel free to edit or delete them!".

(** The condition of [demo_entries]; [or] and [and] evaluate their right
    operand only when needed. *)
Definition wants_demo_data (v : Visit) : Result Exception bool :=
  try! guest <-
    (if negb (is_authenticated (account (visitor v))) then Ok true
     else profile_is_temporary (visitor v));
  if guest then
    try! flag <- session_getitem v "has_demo_data";
    Ok (negb (py_truthy flag))
  else Ok false.

(** The view [demo_entries] *)
Definition demo_entries (v : Visit) : Result Exception (HttpResponse * Visit) :=
  if negb ALLOW_GUEST_USERS then
    try! url <- reverse "software:features";
    Ok (HttpResponseRedirect url, v)
  else
    try! wanted <- wants_demo_data v;
    let v' :=
      if wanted then
        let v1 :=
          if negb (is_authenticated (account (visitor v)))
          then django_login v (create_temporary_user v)
          else v in
        let v2 := create_demo_entries v1 in
        let v3 := session_setitem v2 "has_demo_data" (PBool true) in
        messages_success v3 (gettext demo_message)
      else v in
    try! url <- reverse "core:dashboard";
    Ok (HttpResponseRedirect url, v').

(** [FeedbackClass.get_initial] *)
Definition get_initial (v : Visit) : PyVal :=
  if is_authenticated (account (visitor v))
  then PDict [("contact", PStr (email (visitor v)))]
  else PDict [].

(** [FeedbackClass.get_form_class]; [is_anonymous] is the negation of
    [is_authenticated]. *)
Definition get_form_class (v : Visit) : Result Exception FormClass :=
  try! guest <-
    (if negb (is_authenticated (account (visitor v))) then Ok true
     else profile_is_temporary (visitor v));
  if guest then Ok FeedbackAnonymousForm else Ok FeedbackRegisteredForm.

Variable Database : Type.
Variable CacheValue : Type.
Variable delivers : AdminMail -> bool.

(** [render_to_string(template, {'user': ..., 'form_data': ...})] *)
Variable render_to_string : string -> SiteUser -> PyVal -> string.

(** [FeedbackClass.form_valid]: [mail_admins] is called without
    [fail_silently]; the form view of the framework then redirects to
    [success_url], the lazy reverse of ['software:about-us']. *)
Definition form_valid (cleaned_data : PyVal) (v : Visit) (w : World Database CacheValue)
  : Result Exception (HttpResponse * Visit * World Database CacheValue) :=
  let v1 := messages_success v (gettext "Your feedback was successfully sent. Thank you!") in
  let subj := "New feedback" in
  let msg := render_to_string "user/email_feedback.html" (visitor v) cleaned_data in
  try! w1 <- mail_admins delivers subj msg false w;
  try! url <- reverse "software:about-us";
  Ok (HttpResponseRedirect url, v1, w1).

End Views.

Arguments form_valid gettext reverse {Database CacheValue}
  delivers render_to_string cleaned_data v w.

(** ** Sample records *)

Definition ingredient_100 : Ingredient :=
  candidate (Some 100) (Some (of_int 5)) (Some (of_int 10)) (Some (of_int 2)).

Definition ingredient_80 : Ingredient :=
  candidate (Some 80) (Some (of_int 5)) (Some (of_int 10)) (Some (of_int 2)).

(** Water: no energy, no macronutrients. *)
Definition water : Ingredient :=
  candidate (Some 0) (Some (of_int 0)) (Some (of_int 0)) (Some (of_int 0)).


(** ** A sample installation

    A store that is the list of the rows, a cache of strings, and
    collaborators that answer by a table. *)

Definition set_pk (self : Ingredient) (v : option Z) : Ingredient :=
  {| pk := v; uuid := uuid self; name := name self; energy := energy self;
     protein := protein self; carbohydrates := carbohydrates self;
     carbohydrates_sugar := carbohydrates_sugar self; fat := fat self;
     fat_saturated := fat_saturated self; fibres := fibres self;
     sodium := sodium self; code := code self; status := status self;
     license_author := license_author self |}.

Definition set_name (self : Ingredient) (v : string) : Ingredient :=
  {| pk := pk self; uuid := uuid self; name := v; energy := energy self;
     protein := protein self; carbohydrates := carbohydrates self;
     carbohydrates_sugar := carbohydrates_sugar self; fat := fat self;
     fat_saturated := fat_saturated self; fibres := fibres self;
     sodium := sodium self; code := code self; status := status self;
     license_author := license_author self |}.

Definition SampleWorld : Type := World (list Ingredient) string.

(** Storing a row: an unsaved instance gets the next id. *)
Definition sample_Model_save (self : Ingredient) (w : SampleWorld)
  : Result Exception (Ingredient * SampleWorld) :=
  let self' :=
    match pk self with
    | Some _ => self
    | None => set_pk self (Some (1 + Z.of_nat (length (database w))))
    end in
  Ok (self', mkWorld (database w ++ [self'])%list (cache w) (admin_mails w)).

Definition sample_key (id : option Z) : string :=
  "ingredient-" ++ match id with Some n => str_int n | None => "None" end.

(** An empty store whose cache still holds a view of ingredient 1. *)
Definition sample_world : SampleWorld :=
  mkWorld [] (<["ingredient-1" := "cached view"]> ∅) [].

(** The record and the world after [ingredient_80] is saved there. *)
Definition sample_saved : Ingredient := set_pk ingredient_80 (Some 1).

Definition sample_world_saved : SampleWorld := mkWorld [sample_saved] ∅ [].

Definition no_permission (perm : string) : bool := false.
Definition every_permission (perm : string) : bool := true.

Definition bob : User := mkUser "bob" true no_permission.
Definition admin : User := mkUser "admin" true every_permission.
Definition anonymous : User := mkUser "" false no_permission.

Definition request_bob : HttpRequest := mkRequest bob "example.org:8000".
Definition request_admin : HttpRequest := mkRequest admin "example.org:8000".
Definition request_anonymous : HttpRequest := mkRequest anonymous "example.org".

(** A submission that already names its author. *)
Definition ingredient_of_alice : Ingredient :=
  set_license_author ingredient_80 (Some "alice").

(** A mail backend that always fails. *)
Definition never_delivers (m : AdminMail) : bool := false.

(** A product database that knows one barcode. *)
Definition sample_product : PyVal :=
  PDict [("lang", PStr "en"); ("product_name", PStr "Oat flakes");
         ("generic_name", PStr "Rolled oats")].

Definition sample_get_product (barcode : string) : Result Exception PyVal :=
  if String.eqb barcode "4001" then
    Ok (PDict [("status", PInt 1); ("product", sample_product)])
  else
    Ok (PDict [("status", PInt 0); ("status_verbose", PStr "product not found")]).

Definition sample_load_language (lang : PyVal) (w : SampleWorld)
  : Result Exception unit * SampleWorld := (Ok tt, w).

Definition sample_extract (product : PyVal) (language : unit)
  : Result Exception PyVal :=
  try! nm <- py_getitem product "product_name";
  try! cn <- py_getitem product "generic_name";
  Ok (PDict [("name", nm); ("common_name", cn)]).

Definition sample_init (data : PyVal) : Result Exception Ingredient :=
  try! nm <- py_getitem data "name";
  match nm with
  | PStr s => Ok (set_name (candidate None None None None) s)
  | _ => Raise TypeError
  end.

Definition sample_reverse (viewname : string) : Result Exception string :=
  if String.eqb viewname "core:dashboard" then Ok "/dashboard"
  else if String.eqb viewname "software:features" then Ok "/software/features"
  else Raise (OtherException "NoReverseMatch").

(** The lookup of the sample installation; the status of a product that
    was found is 1. *)
Definition sample_fetch (barcode : string) (w : SampleWorld)
  : Result Exception (option Ingredient * SampleWorld) :=
  fetch_ingredient_from_off sample_Model_save sample_key sample_get_product
    (PInt 1) sample_load_language sample_extract sample_init barcode w.

(** The ingredient the sample lookup creates for barcode 4001, and the world
    after it. *)
Definition sample_oats : Ingredient :=
  set_pk (set_name (candidate None None None None) "Oat flakes") (Some 1).

Definition sample_world_oats : SampleWorld := mkWorld [sample_oats] ∅ [].

(** Two rows with the same values under different keys. *)
Definition twin_1 : Ingredient :=
  {| pk := Some 1; uuid := "1b020b3a-3732-4c7e-92fd-a0cec90ed69b"; name := "Oat flakes";
     energy := Some 372; protein := Some (mkDecimal 13500 (-3));
     carbohydrates := Some (mkDecimal 58700 (-3)); carbohydrates_sugar := None;
     fat := Some (mkDecimal 7000 (-3)); fat_saturated := None;
     fibres := Some (mkDecimal 10 0); sodium := None;
     code := Some "4001"; status := STATUS_ACCEPTED; license_author := None |}.

Definition twin_2 : Ingredient :=
  {| pk := Some 2; uuid := "e9a4e6ac-9c6e-4b0a-a8b7-f6bbd9ed1d47"; name := "Oat flakes";
     energy := Some 372; protein := Some (mkDecimal 135 (-1));
     carbohydrates := Some (mkDecimal 587 (-1)); carbohydrates_sugar := None;
     fat := Some (mkDecimal 7 0); fat_saturated := None;
     fibres := Some (mkDecimal 10000 (-3)); sodium := None;
     code := Some "4002"; status := STATUS_PENDING; license_author := Some "alice" |}.

(** ** What the specification says of [clean], in its words *)

(** A missing amount counts for 0. *)
Definition amount (x : option Decimal) : Q :=
  match x with
  | Some d => Dvalue d
  | None => 0%Q
  end.

(** [4p + 4c + 9f] *)
Definition macronutrient_energy (p c f : option Decimal) : Q :=
  (4 * amount p + 4 * amount c + 9 * amount f)%Q.

(** [0.85 e < s < 1.15 e], both comparisons strict. *)
Definition within_band (e : Z) (s : Q) : Prop :=
  ((85 # 100) * inject_Z e < s /\ s < (115 # 100) * inject_Z e)%Q.

(** ** Auxiliary notions of the statements *)

(** A string without a colon. *)
Fixpoint no_colon (s : string) : Prop :=
  match s with
  | EmptyString => True
  | String c rest => c <> ":"%char /\ no_colon rest
  end.

(** The author after [set_author]: an author that is already there stays,
    a missing one becomes [fallback]. *)
Definition author_or (self : Ingredient) (fallback : string) : option string :=
  if truthy_str (license_author self) then license_author self else Some fallback.

(** Two ingredients agree, in the sense of [==], on the nine attributes
    that [__eq__] names and that an ingredient has. *)
Definition same_values (a b : Ingredient) : Prop :=
  py_eqb (of_decimal (carbohydrates a)) (of_decimal (carbohydrates b)) = true /\
  py_eqb (of_decimal (carbohydrates_sugar a)) (of_decimal (carbohydrates_sugar b)) = true /\
  py_eqb (of_integer (energy a)) (of_integer (energy b)) = true /\
  py_eqb (of_decimal (fat a)) (of_decimal (fat b)) = true /\
  py_eqb (of_decimal (fat_saturated a)) (of_decimal (fat_saturated b)) = true /\
  py_eqb (of_decimal (fibres a)) (of_decimal (fibres b)) = true /\
  py_eqb (PStr (name a)) (PStr (name b)) = true /\
  py_eqb (of_decimal (protein a)) (of_decimal (protein b)) = true /\
  py_eqb (of_decimal (sodium a)) (of_decimal (sodium b)) = true.

(** The names of [compared_attributes] without ['creation_date']. *)
Definition attributes_present : list string :=
  [ "carbohydrates"; "carbohydrates_sugar"; "energy"; "fat"; "fat_saturated";
    "fibres"; "name"; "protein"; "sodium" ].

(** The values an [IntegerField] holds: 32-bit signed integers, or nothing
    yet. *)
Definition in_integer_field (x : option Z) : Prop :=
  match x with
  | Some e => - 2 ^ 31 <= e <= 2 ^ 31 - 1
  | None => True
  end.

(** The values a [DecimalField(max_digits=6, decimal_places=3)] holds: at
    most three decimal places and less than 1000 in absolute value, or
    nothing yet. *)
Definition in_decimal_field (x : option Decimal) : Prop :=
  match x with
  | Some d => -3 <= expo d /\ Z.abs (coef d) * 10 ^ (expo d + 3) < 10 ^ 6
  | None => True
  end.

(** A record whose energy and macronutrients are values of their fields. *)
Definition field_values (self : Ingredient) : Prop :=
  in_integer_field (energy self) /\ in_decimal_field (protein self) /\
  in_decimal_field (carbohydrates self) /\ in_decimal_field (fat self).

(** A decimal of at most three places, below [B] thousandths in absolute
    value. *)
Definition thousandths_below (B : Z) (d : Decimal) : Prop :=
  -3 <= expo d <= 3 /\ Z.abs (coef d) * 10 ^ (expo d + 3) < B.

(** The quantities of [clean] before the context rounds them. *)
Definition exact_energy_of (x : option Decimal) (n : Nutrient) : Decimal :=
  match x with
  | Some d => if Dtruthy d then Dmul d (of_int (ENERGY_FACTOR_kg n)) else of_int 0
  | None => of_int 0
  end.

Definition exact_energy_calculated (self : Ingredient) : Decimal :=
  Dadd (Dadd (exact_energy_of (protein self) Protein)
             (exact_energy_of (carbohydrates self) Carbohydrates))
       (exact_energy_of (fat self) Fat).

Definition exact_energy_upper (e : Z) : Decimal :=
  Dmul (of_int e) (Dadd (of_int 1) approximation_ratio).

Definition exact_energy_lower (e : Z) : Decimal :=
  Dmul (of_int e) (Dsub (of_int 1) approximation_ratio).

(** A [Float] in the notation of the library's specification of binary64,
    to compare the products computed here with those of the machine. *)
Definition to_spec_float (x : Float) : spec_float :=
  match mant x with
  | Z0 => S754_zero false
  | Zpos p => S754_finite false p (fexp x)
  | Zneg p => S754_finite true p (fexp x)
  end.

(** [n * 4.184] as this file computes it, and as the machine does. *)
Definition product_here (n : Z) : option spec_float :=
  match float_of_int n with
  | Ok x => option_map to_spec_float (float_mul x float_4_184)
  | Raise _ => None
  end.

Definition product_machine (n : Z) : option spec_float :=
  Some (Prim2SF (PrimFloat.of_uint63 (Uint63.of_Z n) * 4.184)%float).

(** An energy far outside the integer field. *)
Definition ingredient_huge : Ingredient := with_energy (Some (24 * 10 ^ 24)).

(** ** More sample data *)

Definition ingredient_negative : Ingredient :=
  candidate (Some (-100)) (Some (of_int 5)) (Some (of_int 10)) (Some (of_int 2)).

Definition ingredient_78 : Ingredient :=
  candidate (Some 78) (Some (of_int 5)) (Some (of_int 10)) (Some (of_int 2)).

(** Amounts no decimal field holds: one of 31 digits, one at the largest
    exponent of the context. *)
Definition ingredient_long_protein : Ingredient :=
  candidate (Some 100) (Some (mkDecimal 2874999999999999999999999999999 (-29))) None None.

Definition ingredient_large_protein : Ingredient :=
  candidate (Some 0) (Some (mkDecimal 9 999999)) None None.

(** The sample world after bob's submission was mailed. *)
Definition sample_world_mailed : SampleWorld :=
  mkWorld [] (cache sample_world)
    [mkAdminMail "New user submitted ingredient"
       (submission_message "bob" (name ingredient_of_alice)) true].

(** A product database whose product is a list, not a dictionary. *)
Definition sample_get_product_list (barcode : string) : Result Exception PyVal :=
  Ok (PDict [("status", PInt 1); ("product", PList [])]).

(** A product database that answers "found" and sends no product. *)
Definition sample_get_product_bare (barcode : string) : Result Exception PyVal :=
  Ok (PDict [("status", PInt 1)]).

(** A product database whose product names its language and nothing else. *)
Definition sample_get_product_unnamed (barcode : string) : Result Exception PyVal :=
  Ok (PDict [("status", PInt 1); ("product", PDict [("lang", PStr "en")])]).

(** An extraction that fills in the name only. *)
Definition sample_extract_name (product : PyVal) (language : unit)
  : Result Exception PyVal :=
  try! nm <- py_getitem product "product_name";
  Ok (PDict [("name", nm)]).

(** A language lookup that keeps what it found in the cache. *)
Definition sample_load_language_caching (lang : PyVal) (w : SampleWorld)
  : Result Exception unit * SampleWorld :=
  (Ok tt, mkWorld (database w) (<["language-en" := "English"]> (cache w)) (admin_mails w)).

(** The sample world after such a lookup. *)
Definition sample_world_language : SampleWorld :=
  mkWorld [] (<["language-en" := "English"]> (<["ingredient-1" := "cached view"]> ∅)) [].

Definition monday : DaysOfWeek := mkDaysOfWeek 1 "Monday".
Definition tuesday : DaysOfWeek := mkDaysOfWeek 2 "Tuesday".
Definition thursday : DaysOfWeek := mkDaysOfWeek 4 "Thursday".

Definition sample_week : list DaysOfWeek := [monday; tuesday; thursday].

(** Two training days that both claim Thursday. *)
Definition push_day : Day := mkDay "Push" [monday; thursday].
Definition leg_day : Day := mkDay "Legs" [thursday].

Definition sample_workout : Workout := mkWorkout [push_day; leg_day].

Definition sample_gettext (msgid : string) : string := msgid.

Definition guest_user : SiteUser :=
  mkSiteUser (mkUser "guest-1" true no_permission) "" (Some (mkUserProfile true)).

Definition registered_user : SiteUser :=
  mkSiteUser bob "bob@example.org" (Some (mkUserProfile false)).

Definition anonymous_user : SiteUser := mkSiteUser anonymous "" None.

Definition sample_create_temporary_user (v : Visit) : SiteUser := guest_user.

Definition sample_login_session (s : gmap string PyVal) (u : SiteUser)
  : gmap string PyVal :=
  <["_auth_user_id" := PStr (username (account u))]> s.

(** A first visit: nobody logged in, no demo data yet. *)
Definition first_visit : Visit :=
  mkVisit anonymous_user (<["has_demo_data" := PBool false]> ∅) [] [].

(** The same visit after the demo data were created. *)
Definition guest_visit : Visit :=
  mkVisit guest_user
    (<["has_demo_data" := PBool true]>
       (<["_auth_user_id" := PStr "guest-1"]> (<["has_demo_data" := PBool false]> ∅)))
    [sample_gettext demo_message] ["guest-1"].

Definition registered_visit : Visit := mkVisit registered_user ∅ [] [].

(** A visit whose session was never prepared. *)
Definition bare_visit : Visit := mkVisit anonymous_user ∅ [] [].

Definition sample_demo_entries (v : Visit) : Result Exception (HttpResponse * Visit) :=
  demo_entries sample_gettext sample_reverse true sample_create_temporary_user
    sample_login_session v.

(** ** Auxiliary notions of the further statements *)

(** The values of attributes: no lists, no dictionaries. *)
Definition scalar (v : PyVal) : Prop :=
  match v with
  | PList _ | PDict _ => False
  | _ => True
  end.

(** The number of hundredths of a kilojoule the property stands for on the
    integer field. *)
Definition hundredths (e : Z) : Z :=
  if e =? 0 then 0 else Z.sgn e * div_half_even (Z.abs e * 4184) 10.

(** The weekdays a training day lists, by id. *)
Definition day_ids (d : Day) : list Z := map dow_id (day d).

(** The workout trains on the weekday with id [k]. *)
Definition trains_on (current_workout : option Workout) (k : Z) : Prop :=
  exists workout d, current_workout = Some workout /\ d ∈ day_set workout /\ k ∈ day_ids d.

(** The entry of one weekday in the table of [dashboard]. *)
Definition week_entry (gettext : string -> string) (used : gmap Z string)
    (week : DaysOfWeek) : string * string * bool :=
  match used !! dow_id week with
  | Some d => (gettext (day_of_week week), d, true)
  | None => (gettext (day_of_week week), gettext "Rest day", false)
  end.

(** The visitor is anonymous or a temporary (guest) user. *)
Definition is_guest (u : SiteUser) : Prop :=
  is_authenticated (account u) = false \/
  exists p, userprofile u = Some p /\ is_temporary p = true.

(** The request after [demo_entries] created the demo data. *)
Definition with_demo_data (gettext : string -> string)
    (create_temporary_user : Visit -> SiteUser)
    (login_session : gmap string PyVal -> SiteUser -> gmap string PyVal)
    (v : Visit) : Visit :=
  let v1 :=
    if negb (is_authenticated (account (visitor v)))
    then django_login login_session v (create_temporary_user v)
    else v in
  messages_success
    (session_setitem (create_demo_entries v1) "has_demo_data" (PBool true))
    (gettext demo_message).

(** The mail of [form_valid]. *)
Definition feedback_mail (render_to_string : string -> SiteUser -> PyVal -> string)
    (cleaned_data : PyVal) (v : Visit) : AdminMail :=
  mkAdminMail "New feedback"
    (render_to_string "user/email_feedback.html" (visitor v) cleaned_data) false.

(** * Properties *)

(** ** Decimals and the rationals they stand for *)

Lemma ten_pow_Q (k : Z) : 0 <= k -> inject_Z (10 ^ k) == Qpower (10 # 1) k.
Proof. intros Hk. apply (Zpower_Qpower 10 k Hk). Qed.

Lemma ten_nonzero : ~ (10 # 1 == 0)%Q.
Proof. discriminate. Qed.

Lemma ten_pow_pos (k : Z) : (0 < Qpower (10 # 1) k)%Q.
Proof. apply Qpower_0_lt. reflexivity. Qed.

(** Writing a decimal with a smaller exponent does not change the number. *)
Lemma rescale_value (d : Decimal) (e : Z) :
  e <= expo d -> (inject_Z (rescale d e) * Qpower (10 # 1) e == Dvalue d)%Q.
Proof.
  intros He. unfold rescale, Dvalue.
  rewrite inject_Z_mult, ten_pow_Q by lia.
  rewrite <- Qmult_assoc, <- Qpower_plus by apply ten_nonzero.
  replace (expo d - e + e) with (expo d) by lia.
  reflexivity.
Qed.

Lemma Dvalue_of_int (n : Z) : (Dvalue (of_int n) == inject_Z n)%Q.
Proof. unfold Dvalue, of_int. simpl. ring. Qed.

Lemma Dvalue_mul (a b : Decimal) : (Dvalue (Dmul a b) == Dvalue a * Dvalue b)%Q.
Proof.
  unfold Dvalue, Dmul. simpl.
  rewrite inject_Z_mult, Qpower_plus by apply ten_nonzero.
  ring.
Qed.

Lemma Dvalue_add (a b : Decimal) : (Dvalue (Dadd a b) == Dvalue a + Dvalue b)%Q.
Proof.
  unfold Dadd. cbv zeta.
  rewrite <- (rescale_value a (Z.min (expo a) (expo b))) by lia.
  rewrite <- (rescale_value b (Z.min (expo a) (expo b))) by lia.
  unfold Dvalue at 1. simpl.
  rewrite inject_Z_plus. ring.
Qed.

Lemma Dvalue_sub (a b : Decimal) : (Dvalue (Dsub a b) == Dvalue a - Dvalue b)%Q.
Proof.
  unfold Dsub. cbv zeta.
  rewrite <- (rescale_value a (Z.min (expo a) (expo b))) by lia.
  rewrite <- (rescale_value b (Z.min (expo a) (expo b))) by lia.
  unfold Dvalue at 1. simpl.
  unfold Z.sub. rewrite inject_Z_plus, inject_Z_opp. ring.
Qed.

(** The comparison of decimals is the comparison of the numbers. *)
Lemma Dltb_spec (a b : Decimal) : Dltb a b = true <-> (Dvalue a < Dvalue b)%Q.
Proof.
  unfold Dltb. cbv zeta.
  rewrite <- (rescale_value a (Z.min (expo a) (expo b))) by lia.
  rewrite <- (rescale_value b (Z.min (expo a) (expo b))) by lia.
  rewrite Z.ltb_lt, Zlt_Qlt.
  symmetry. apply Qmult_lt_r. apply ten_pow_pos.
Qed.

Lemma Deqb_spec (a b : Decimal) : Deqb a b = true <-> (Dvalue a == Dvalue b)%Q.
Proof.
  unfold Deqb. cbv zeta.
  rewrite <- (rescale_value a (Z.min (expo a) (expo b))) by lia.
  rewrite <- (rescale_value b (Z.min (expo a) (expo b))) by lia.
  rewrite Z.eqb_eq. split.
  - intros ->. reflexivity.
  - intros H. apply Qmult_inj_r in H.
    + apply inject_Z_injective. exact H.
    + intros Hz. pose proof (ten_pow_pos (Z.min (expo a) (expo b))) as Hp.
      rewrite Hz in Hp. discriminate.
Qed.

Lemma Dtruthy_false (d : Decimal) : Dtruthy d = false -> (Dvalue d == 0)%Q.
Proof.
  unfold Dtruthy, Dvalue. intros H.
  apply negb_false_iff, Z.eqb_eq in H. rewrite H. ring.
Qed.

(** ** The context leaves short decimals as they are *)

Lemma count_digits_pos (fuel : nat) (n : Z) : 1 <= count_digits fuel n.
Proof.
  revert n. induction fuel as [| fuel IH]; intros n; simpl; [lia |].
  destruct (n <? 10); [lia |]. specialize (IH (n / 10)). lia.
Qed.

(** A number has at least the digits counted, whatever the fuel. *)
Lemma count_digits_lower (fuel : nat) (n : Z) :
  0 < n -> 10 ^ (count_digits fuel n - 1) <= n.
Proof.
  revert n. induction fuel as [| fuel IH]; intros n Hn.
  - simpl. lia.
  - cbn [count_digits]. destruct (Z.ltb_spec n 10) as [Hlt | Hge].
    + simpl. lia.
    + replace (1 + count_digits fuel (n / 10) - 1)
        with (Z.succ (count_digits fuel (n / 10) - 1)) by lia.
      rewrite Z.pow_succ_r by (pose proof (count_digits_pos fuel (n / 10)); lia).
      assert (0 < n / 10) as Hq by (apply Z.div_str_pos; lia).
      specialize (IH (n / 10) Hq).
      pose proof (Z.mul_div_le n 10 ltac:(lia)). lia.
Qed.

(** With fuel for the binary digits all decimal digits are counted. *)
Lemma count_digits_upper (fuel : nat) (n : Z) :
  0 < n < 2 ^ (Z.of_nat fuel + 1) -> n < 10 ^ count_digits fuel n.
Proof.
  revert n. induction fuel as [| fuel IH]; intros n Hn.
  - simpl in *. lia.
  - cbn [count_digits]. destruct (Z.ltb_spec n 10) as [Hlt | Hge]; [simpl; lia |].
    replace (1 + count_digits fuel (n / 10)) with (Z.succ (count_digits fuel (n / 10)))
      by lia.
    rewrite Z.pow_succ_r by (pose proof (count_digits_pos fuel (n / 10)); lia).
    assert (0 < n / 10) as Hq by (apply Z.div_str_pos; lia).
    assert (n / 10 < 2 ^ (Z.of_nat fuel + 1)) as Hb.
    { apply Z.div_lt_upper_bound; [lia |].
      replace (Z.of_nat (S fuel) + 1) with (Z.succ (Z.of_nat fuel + 1)) in Hn by lia.
      rewrite Z.pow_succ_r in Hn by lia. lia. }
    specialize (IH (n / 10) (conj Hq Hb)).
    pose proof (Z.div_mod n 10 ltac:(lia)) as Hdm.
    pose proof (Z.mod_pos_bound n 10 ltac:(lia)) as Hm. lia.
Qed.

(** [digits n] is the length of [str(n)]: [10 ^ (digits n - 1) <= n <
    10 ^ digits n]. *)
Lemma digits_spec (n : Z) : 0 < n -> 10 ^ (digits n - 1) <= n < 10 ^ digits n.
Proof.
  intros Hn. unfold digits. split; [apply count_digits_lower; exact Hn |].
  apply count_digits_upper. split; [exact Hn |].
  rewrite Z2Nat.id by (apply Z.log2_nonneg).
  replace (Z.log2 n + 1) with (Z.succ (Z.log2 n)) by lia.
  apply Z.log2_spec. exact Hn.
Qed.

Lemma digits_le (n k : Z) : 0 < n < 10 ^ k -> 0 <= k -> digits n <= k.
Proof.
  intros [Hn Hk] Hk0. unfold digits.
  pose proof (count_digits_lower (Z.to_nat (Z.log2 n)) n Hn) as Hl.
  destruct (Z.le_gt_cases (count_digits (Z.to_nat (Z.log2 n)) n) k) as [H | H];
    [exact H |].
  assert (10 ^ k <= 10 ^ (count_digits (Z.to_nat (Z.log2 n)) n - 1))
    by (apply Z.pow_le_mono_r; lia).
  lia.
Qed.

(** The context on a tie below an even and below an odd digit, on a carry
    into a 29th digit, at the largest exponents, below the smallest, and on
    zeros: the values Python gives. *)
Example context_fix_forms :
  map (fun d => context_fix (mkDecimal (fst d) (snd d)))
    [ (10000000000000000000000000005, 0); (10000000000000000000000000015, 0);
      (-10000000000000000000000000015, -40); (99999999999999999999999999995, 3);
      (123456789012345678901234567890123456, -20);
      (9999999999999999999999999999, 999972); (10000000000000000000000000000, 999971);
      (99999999999999999999999999995, 999971); (1, 999973); (36, 999999);
      (1, -1000030); (15, -1000027); (25, -1000027); (-35, -1000027);
      (5, -1000027); (51, -1000028); (123456789, -1000030);
      (0, 1000005); (0, -2000000); (0, -5); (12345, -3) ]
  = [ Some (mkDecimal 1000000000000000000000000000 1);
      Some (mkDecimal 1000000000000000000000000002 1);
      Some (mkDecimal (-1000000000000000000000000002) (-39));
      Some (mkDecimal 1000000000000000000000000000 5);
      Some (mkDecimal 1234567890123456789012345679 (-12));
      Some (mkDecimal 9999999999999999999999999999 999972);
      Some (mkDecimal 1000000000000000000000000000 999972);
      None; Some (mkDecimal 1 999973); None;
      Some (mkDecimal 0 (-1000026)); Some (mkDecimal 2 (-1000026));
      Some (mkDecimal 2 (-1000026)); Some (mkDecimal (-4) (-1000026));
      Some (mkDecimal 0 (-1000026)); Some (mkDecimal 1 (-1000026));
      Some (mkDecimal 12346 (-1000026));
      Some (mkDecimal 0 999999); Some (mkDecimal 0 (-1000026));
      Some (mkDecimal 0 (-5)); Some (mkDecimal 12345 (-3)) ].
Proof. vm_compute. reflexivity. Qed.

(** A result of at most 28 digits with an exponent in the range of the
    context is not rounded, and no overflow is raised. *)
Lemma context_fix_exact (d : Decimal) :
  Z.abs (coef d) < 10 ^ context_prec ->
  context_Etiny <= expo d <= context_Etop ->
  context_fix d = Some d.
Proof.
  intros Hc He. unfold context_fix.
  destruct (Z.eqb_spec (coef d) 0) as [Hz | Hnz].
  - destruct d as [c x]. simpl in *. subst c. f_equal. f_equal.
    unfold context_Etiny, context_Etop, context_Emax, context_Emin, context_prec in *. lia.
  - cbv zeta.
    pose proof (digits_le (Z.abs (coef d)) context_prec ltac:(lia)
                  ltac:(unfold context_prec; lia)) as Hd.
    destruct (Z.ltb_spec context_Etop (digits (Z.abs (coef d)) + expo d - context_prec));
      [lia |].
    destruct (Z.ltb_spec (expo d)
                (Z.max (digits (Z.abs (coef d)) + expo d - context_prec) context_Etiny));
      [lia | reflexivity].
Qed.

Lemma fix_thousandths (B : Z) (d : Decimal) :
  B <= 10 ^ 28 -> thousandths_below B d -> context_fix d = Some d.
Proof.
  intros HB [He Hc]. apply context_fix_exact.
  - pose proof (Z.pow_pos_nonneg 10 (expo d + 3) ltac:(lia) ltac:(lia)) as Hp.
    unfold context_prec. nia.
  - unfold context_Etiny, context_Etop, context_Emax, context_Emin, context_prec. lia.
Qed.

Lemma thousandths_below_le (B B' : Z) (d : Decimal) :
  B <= B' -> thousandths_below B d -> thousandths_below B' d.
Proof. intros HB [He Hc]. split; [exact He | lia]. Qed.

Lemma Dmul_thousandths (B k : Z) (d : Decimal) :
  0 < k -> thousandths_below B d -> thousandths_below (k * B) (Dmul d (of_int k)).
Proof.
  intros Hk [He Hc]. unfold thousandths_below, Dmul, of_int. simpl.
  rewrite Z.add_0_r. split; [exact He |].
  rewrite Z.abs_mul, (Z.abs_eq k) by lia. nia.
Qed.

Lemma rescale_thousandths (d : Decimal) (m : Z) :
  -3 <= m <= expo d ->
  Z.abs (rescale d m) * 10 ^ (m + 3) = Z.abs (coef d) * 10 ^ (expo d + 3).
Proof.
  intros Hm. unfold rescale.
  rewrite Z.abs_mul, (Z.abs_eq (10 ^ (expo d - m))) by (apply Z.pow_nonneg; lia).
  rewrite <- Z.mul_assoc, <- Z.pow_add_r by lia.
  f_equal. f_equal. lia.
Qed.

Lemma Dadd_thousandths (Ba Bb : Z) (a b : Decimal) :
  thousandths_below Ba a -> thousandths_below Bb b ->
  thousandths_below (Ba + Bb) (Dadd a b).
Proof.
  intros [Hea Hca] [Heb Hcb]. unfold thousandths_below, Dadd. cbv zeta. simpl.
  split; [lia |].
  set (m := Z.min (expo a) (expo b)).
  pose proof (rescale_thousandths a m ltac:(lia)) as Ha.
  pose proof (rescale_thousandths b m ltac:(lia)) as Hb.
  pose proof (Z.pow_pos_nonneg 10 (m + 3) ltac:(lia) ltac:(lia)) as Hp.
  pose proof (Z.abs_triangle (rescale a m) (rescale b m)) as Ht.
  nia.
Qed.

(** An amount of the decimal field that is not zero has its exponent
    between -3 and 2. *)
Lemma field_thousandths (d : Decimal) :
  in_decimal_field (Some d) -> Dtruthy d = true -> thousandths_below (10 ^ 6) d.
Proof.
  unfold in_decimal_field, Dtruthy, thousandths_below. intros [He Hc] Ht.
  apply negb_true_iff, Z.eqb_neq in Ht.
  repeat split; try assumption.
  destruct (Z.le_gt_cases (expo d) 3) as [H | H]; [exact H |].
  assert (10 ^ 6 <= 10 ^ (expo d + 3)) by (apply Z.pow_le_mono_r; lia).
  nia.
Qed.

(** ** The arithmetic of clean on the values of the fields *)

Lemma energy_of_exact (x : option Decimal) (n : Nutrient) :
  in_decimal_field x ->
  energy_of x n = Some (exact_energy_of x n) /\
  thousandths_below (9 * 10 ^ 6) (exact_energy_of x n).
Proof.
  intros Hx. unfold energy_of, exact_energy_of.
  assert (thousandths_below (9 * 10 ^ 6) (of_int 0)) as Hzero
    by (unfold thousandths_below, of_int; simpl; lia).
  destruct x as [d |]; [| split; [reflexivity | exact Hzero]].
  destruct (Dtruthy d) eqn:Ht; [| split; [reflexivity | exact Hzero]].
  pose proof (field_thousandths d Hx Ht) as Hd.
  assert (thousandths_below (9 * 10 ^ 6) (Dmul d (of_int (ENERGY_FACTOR_kg n)))) as Hm.
  { destruct n; simpl ENERGY_FACTOR_kg.
    - apply (thousandths_below_le (4 * 10 ^ 6)); [lia |]. apply Dmul_thousandths; [lia | exact Hd].
    - apply (thousandths_below_le (4 * 10 ^ 6)); [lia |]. apply Dmul_thousandths; [lia | exact Hd].
    - apply Dmul_thousandths; [lia | exact Hd]. }
  split; [| exact Hm].
  unfold Decimal_mul. apply (fix_thousandths (9 * 10 ^ 6)); [lia | exact Hm].
Qed.

(** On amounts of the decimal field no product and no sum of [clean] is
    rounded or overflows. *)
Lemma energy_calculated_exact (self : Ingredient) :
  in_decimal_field (protein self) -> in_decimal_field (carbohydrates self) ->
  in_decimal_field (fat self) ->
  energy_calculated self = Some (exact_energy_calculated self).
Proof.
  intros Hp Hc Hf. unfold energy_calculated, exact_energy_calculated.
  destruct (energy_of_exact (protein self) Protein Hp) as [-> Bp].
  destruct (energy_of_exact (carbohydrates self) Carbohydrates Hc) as [-> Bc].
  destruct (energy_of_exact (fat self) Fat Hf) as [-> Bf].
  pose proof (Dadd_thousandths _ _ _ _ Bp Bc) as Bpc.
  pose proof (Dadd_thousandths _ _ _ _ Bpc Bf) as Bpcf.
  unfold Decimal_add.
  rewrite (fix_thousandths (9 * 10 ^ 6 + 9 * 10 ^ 6) _ ltac:(lia) Bpc).
  apply (fix_thousandths (9 * 10 ^ 6 + 9 * 10 ^ 6 + 9 * 10 ^ 6) _ ltac:(lia) Bpcf).
Qed.

(** Nor are the ends of the band, for an energy of the integer field. *)
Lemma energy_upper_exact (e : Z) :
  in_integer_field (Some e) -> energy_upper e = Some (exact_energy_upper e).
Proof.
  intros He. unfold energy_upper, exact_energy_upper.
  change (Decimal_add (of_int 1) approximation_ratio) with (Some (mkDecimal 115 (-2))).
  change (Dadd (of_int 1) approximation_ratio) with (mkDecimal 115 (-2)).
  unfold Decimal_mul. apply context_fix_exact.
  - unfold Dmul, of_int, context_prec. simpl coef. simpl in He. lia.
  - unfold context_Etiny, context_Etop, context_Emax, context_Emin, context_prec.
    simpl. lia.
Qed.

Lemma energy_lower_exact (e : Z) :
  in_integer_field (Some e) -> energy_lower e = Some (exact_energy_lower e).
Proof.
  intros He. unfold energy_lower, exact_energy_lower.
  change (Decimal_sub (of_int 1) approximation_ratio) with (Some (mkDecimal 85 (-2))).
  change (Dsub (of_int 1) approximation_ratio) with (mkDecimal 85 (-2)).
  unfold Decimal_mul. apply context_fix_exact.
  - unfold Dmul, of_int, context_prec. simpl coef. simpl in He. lia.
  - unfold context_Etiny, context_Etop, context_Emax, context_Emin, context_prec.
    simpl. lia.
Qed.

(** The energy of one macronutrient is the factor times the amount, a
    missing or zero amount counting for 0. *)
Lemma Dvalue_energy_of (x : option Decimal) (n : Nutrient) :
  (Dvalue (exact_energy_of x n) == inject_Z (ENERGY_FACTOR_kg n) * amount x)%Q.
Proof.
  destruct x as [d|]; simpl.
  - destruct (Dtruthy d) eqn:Ht.
    + rewrite Dvalue_mul, Dvalue_of_int. ring.
    + rewrite (Dtruthy_false d Ht), Dvalue_of_int. ring.
  - rewrite Dvalue_of_int. ring.
Qed.

Lemma Dvalue_energy_calculated (self : Ingredient) :
  (Dvalue (exact_energy_calculated self)
   == macronutrient_energy (protein self) (carbohydrates self) (fat self))%Q.
Proof.
  unfold exact_energy_calculated, macronutrient_energy.
  rewrite !Dvalue_add, !Dvalue_energy_of. simpl. ring.
Qed.

Lemma Dvalue_energy_upper (e : Z) :
  (Dvalue (exact_energy_upper e) == (115 # 100) * inject_Z e)%Q.
Proof.
  unfold exact_energy_upper. rewrite Dvalue_mul, Dvalue_add, !Dvalue_of_int.
  unfold Dvalue, approximation_ratio, ENERGY_APPROXIMATION. simpl.
  field.
Qed.

Lemma Dvalue_energy_lower (e : Z) :
  (Dvalue (exact_energy_lower e) == (85 # 100) * inject_Z e)%Q.
Proof.
  unfold exact_energy_lower. rewrite Dvalue_mul, Dvalue_sub, !Dvalue_of_int.
  unfold Dvalue, approximation_ratio, ENERGY_APPROXIMATION. simpl.
  field.
Qed.

(** The test of [clean], read on the numbers. *)
Lemma band_test_value (calculated : Decimal) (e : Z) :
  Dgtb (exact_energy_upper e) calculated && Dgtb calculated (exact_energy_lower e) = true
  <-> within_band e (Dvalue calculated).
Proof.
  unfold Dgtb, within_band.
  rewrite andb_true_iff, !Dltb_spec.
  rewrite Dvalue_energy_upper, Dvalue_energy_lower.
  tauto.
Qed.

Lemma band_test (self : Ingredient) (e : Z) :
  Dgtb (exact_energy_upper e) (exact_energy_calculated self)
  && Dgtb (exact_energy_calculated self) (exact_energy_lower e) = true
  <-> within_band e (macronutrient_energy (protein self) (carbohydrates self) (fat self)).
Proof.
  rewrite band_test_value. unfold within_band.
  rewrite Dvalue_energy_calculated. tauto.
Qed.

(** [clean] on a record with an energy of the integer field, other than 0,
    whose computed energy does not overflow. *)
Lemma clean_energy_in_field (self : Ingredient) (e : Z) (calculated : Decimal) :
  energy self = Some e -> e <> 0 -> in_integer_field (Some e) ->
  energy_calculated self = Some calculated ->
  clean self =
    if Dgtb (exact_energy_upper e) calculated && Dgtb calculated (exact_energy_lower e)
    then Ok tt
    else Raise (Invalid (MkValidationError (energy_message e calculated))).
Proof.
  intros He Hne Hrange Hcalc. unfold clean. rewrite Hcalc, He. unfold truthy_int.
  destruct (Z.eqb_spec e 0) as [-> | _]; [congruence |]. simpl negb. cbv iota.
  rewrite (energy_upper_exact e Hrange), (energy_lower_exact e Hrange).
  destruct (Dgtb (exact_energy_upper e) calculated && Dgtb calculated (exact_energy_lower e));
    reflexivity.
Qed.

(** [clean] on the values of the fields. *)
Lemma clean_field_values (self : Ingredient) (e : Z) :
  field_values self -> energy self = Some e -> e <> 0 ->
  clean self =
    if Dgtb (exact_energy_upper e) (exact_energy_calculated self)
       && Dgtb (exact_energy_calculated self) (exact_energy_lower e)
    then Ok tt
    else Raise (Invalid (MkValidationError
                           (energy_message e (exact_energy_calculated self)))).
Proof.
  intros (Hrange & Hp & Hc & Hf) He Hne. rewrite He in Hrange.
  apply clean_energy_in_field; try assumption.
  apply energy_calculated_exact; assumption.
Qed.

(** ** str() *)

(** The printed forms agree with Python's on plain, small, scientific and
    negative decimals. *)
Example str_Decimal_forms :
  map (fun d => str_Decimal (mkDecimal (fst d) (snd d)))
    [ (78000, -3); (-5, -3); (12, 2); (1, -7); (1, -6); (123, -2); (0, 0);
      (0, -2); (0, 3); (-12345, -10); (5, 0); (7, 1); (123456, -8);
      (123456, -12); (-41840, -2) ]
  = [ "78.000"; "-0.005"; "1.2E+3"; "1E-7"; "0.000001"; "1.23"; "0"; "0.00";
      "0E+3"; "-0.0000012345"; "5"; "7E+1"; "0.00123456"; "1.23456E-7";
      "-418.40" ].
Proof. vm_compute. reflexivity. Qed.

(** With amounts read from the store (three decimal places) the message of
    [clean] prints the computed energy with these places. *)
Example clean_message_three_places :
  clean (candidate (Some 100) (Some (mkDecimal 5000 (-3))) (Some (mkDecimal 10000 (-3)))
           (Some (mkDecimal 2000 (-3))))
  = Raise (Invalid (MkValidationError
      "The total energy (100kcal) is not the approximate sum of the energy provided by protein, carbohydrates and fat (78.000kcal +/-15%)")).
Proof. vm_compute. reflexivity. Qed.

(** ** clean *)

(** On the values of the fields the computed energy is [4p + 4c + 9f], a
    missing amount counting for 0. *)
Lemma energy_calculated_sum (self : Ingredient) :
  in_decimal_field (protein self) -> in_decimal_field (carbohydrates self) ->
  in_decimal_field (fat self) ->
  exists calculated,
    energy_calculated self = Some calculated /\
    (Dvalue calculated
     == 4 * amount (protein self) + 4 * amount (carbohydrates self)
        + 9 * amount (fat self))%Q.
Proof.
  intros Hp Hc Hf. exists (exact_energy_calculated self).
  split; [apply energy_calculated_exact; assumption | apply Dvalue_energy_calculated].
Qed.

(** Outside the decimal field the context shows.  A protein of 31 digits
    gives a product of 32, which is rounded to 28: the computed energy is
    115.0000000000000000000000000, not under the upper end 115.00 of the
    band, and [clean] raises, though the exact product
    114.99999999999999999999999999996 is inside the band. *)
Example clean_rounds :
  energy_calculated ingredient_long_protein
  = Some (mkDecimal 1150000000000000000000000000 (-25)) /\
  clean ingredient_long_protein
  = Raise (Invalid (MkValidationError
      "The total energy (100kcal) is not the approximate sum of the energy provided by protein, carbohydrates and fat (115.0000000000000000000000000kcal +/-15%)")) /\
  within_band 100 (macronutrient_energy (protein ingredient_long_protein)
                     (carbohydrates ingredient_long_protein) (fat ingredient_long_protein)).
Proof.
  split; [vm_compute; reflexivity | split; [vm_compute; reflexivity |]].
  split; vm_compute; reflexivity.
Qed.

(** A product beyond the largest exponent raises [decimal.Overflow], also
    when the energy is 0: the products come before the test of the
    energy. *)
Example clean_overflows :
  energy ingredient_large_protein = Some 0 /\
  clean ingredient_large_protein = Raise DecimalOverflow.
Proof. split; vm_compute; reflexivity. Qed.

(** C1, as stated, fails for water: the energy is declared (as 0), the sum
    0 is not strictly between [0.85 * 0] and [1.15 * 0], and yet [clean]
    passes. *)
Lemma clean_water_outside_band :
  ~ (clean water = Ok tt <->
     energy water = None \/
     within_band 0 (macronutrient_energy (protein water) (carbohydrates water) (fat water))).
Proof.
  intros [H _]. destruct (H eq_refl) as [Hnone | [Hlow _]].
  - discriminate Hnone.
  - vm_compute in Hlow. discriminate Hlow.
Qed.

(** C1, amended: on a record whose energy and macronutrients are values of
    their fields (a 32-bit energy, amounts of at most three decimal places
    below 1000), [clean] passes if and only if the energy is absent, or is
    0, or [0.85 e < 4p + 4c + 9f < 1.15 e] with both comparisons strict;
    missing macronutrients count for 0 in the sum. *)
Theorem clean_passes_iff (self : Ingredient) :
  field_values self ->
  (clean self = Ok tt <->
   energy self = None \/ energy self = Some 0 \/
   exists e, energy self = Some e /\
     within_band e (macronutrient_energy (protein self) (carbohydrates self) (fat self))).
Proof.
  intros Hfield.
  destruct (energy self) as [e|] eqn:He.
  - destruct (Z.eq_dec e 0) as [-> | Hne].
    + split; [auto |]. intros _.
      destruct Hfield as (_ & Hp & Hc & Hf).
      unfold clean. rewrite (energy_calculated_exact self Hp Hc Hf), He. reflexivity.
    + rewrite (clean_field_values self e Hfield He Hne).
      destruct (Dgtb (exact_energy_upper e) (exact_energy_calculated self)
                && Dgtb (exact_energy_calculated self) (exact_energy_lower e)) eqn:Hb.
      * apply band_test in Hb. split; eauto.
      * split; [discriminate |].
        intros [H | [H | [e' [H Hband]]]]; try congruence.
        injection H as <-. apply band_test in Hband. congruence.
  - split; [auto |]. intros _.
    destruct Hfield as (_ & Hp & Hc & Hf).
    unfold clean. rewrite (energy_calculated_exact self Hp Hc Hf), He. reflexivity.
Qed.

Lemma clean_passes_iff_witness :
  field_values ingredient_80 /\
  (clean ingredient_80 = Ok tt <->
   energy ingredient_80 = None \/ energy ingredient_80 = Some 0 \/
   exists e, energy ingredient_80 = Some e /\
     within_band e (macronutrient_energy (protein ingredient_80)
                      (carbohydrates ingredient_80) (fat ingredient_80))).
Proof.
  assert (field_values ingredient_80) as Hfield
    by (vm_compute; repeat split; discriminate).
  split; [exact Hfield | exact (clean_passes_iff ingredient_80 Hfield)].
Defined.




(** C3: with energy 100, protein 5, carbohydrates 10 and fat 2 the computed
    energy is 78 and [clean] raises the validation error whose message
    cites 100, 78 and 15; with energy 80 and the same amounts it passes. *)
Theorem clean_examples :
  energy_calculated ingredient_100 = Some (of_int 78) /\
  clean ingredient_100 =
    Raise (Invalid (MkValidationError
      "The total energy (100kcal) is not the approximate sum of the energy provided by protein, carbohydrates and fat (78kcal +/-15%)")) /\
  clean ingredient_80 = Ok tt.
Proof. repeat split; vm_compute; reflexivity. Qed.

(** ** save *)

Section SaveFacts.

Context {Database CacheValue : Type}.
Variable Model_save :
  Ingredient -> World Database CacheValue ->
  Result Exception (Ingredient * World Database CacheValue).
Variable get_ingredient_key : option Z -> string.

(** Deleting a key makes the next read of it a miss. *)
Lemma cache_get_delete (key : string) (w : World Database CacheValue) :
  cache_get key (cache_delete key w) = None.
Proof. unfold cache_get, cache_delete. simpl. apply lookup_delete_eq. Qed.

(** The other keys are not touched. *)
Lemma cache_get_delete_ne (key key' : string) (w : World Database CacheValue) :
  key <> key' -> cache_get key' (cache_delete key w) = cache_get key' w.
Proof.
  intros Hne. unfold cache_get, cache_delete. simpl.
  apply lookup_delete_ne. exact Hne.
Qed.

(** [save] succeeds exactly when the save of the parent class does. *)
Lemma save_succeeds (self self' : Ingredient) (w w1 : World Database CacheValue) :
  Model_save self w = Ok (self', w1) ->
  save Model_save get_ingredient_key self w
  = Ok (self', cache_delete (get_ingredient_key (pk self')) w1).
Proof. intros H. unfold save. rewrite H. reflexivity. Qed.

Lemma save_raises (self : Ingredient) (w : World Database CacheValue) (e : Exception) :
  Model_save self w = Raise e ->
  save Model_save get_ingredient_key self w = Raise e.
Proof. intros H. unfold save. rewrite H. reflexivity. Qed.

(** C4: a successful [save] is the save of the parent class followed by
    the deletion of the cache entry at the key of the record's id; a read
    of that key right after is a miss. *)
Theorem save_evicts (self self' : Ingredient) (w w' : World Database CacheValue) :
  save Model_save get_ingredient_key self w = Ok (self', w') ->
  (exists w1, Model_save self w = Ok (self', w1) /\
              w' = cache_delete (get_ingredient_key (pk self')) w1) /\
  cache_get (get_ingredient_key (pk self')) w' = None.
Proof.
  unfold save. intros H.
  destruct (Model_save self w) as [[s1 w1] | e] eqn:Hs; simpl in H; [| discriminate H].
  injection H as <- <-.
  split; [eauto |]. apply cache_get_delete.
Qed.

End SaveFacts.

Lemma save_evicts_witness :
  (exists w1, sample_Model_save ingredient_80 sample_world = Ok (sample_saved, w1) /\
              sample_world_saved = cache_delete (sample_key (pk sample_saved)) w1) /\
  cache_get (sample_key (pk sample_saved)) sample_world_saved = None.
Proof.
  apply (save_evicts sample_Model_save sample_key ingredient_80 sample_saved
           sample_world sample_world_saved).
  vm_compute. reflexivity.
Defined.

(** ** set_author *)

(** [split_colon_0] strips a port: of [host:port] it keeps [host]. *)
Lemma split_colon_0_port (host port : string) :
  no_colon host -> split_colon_0 (host ++ ":" ++ port) = host.
Proof.
  induction host as [| c rest IH]; simpl.
  - reflexivity.
  - intros [Hc Hrest]. apply Ascii.eqb_neq in Hc. rewrite Hc.
    f_equal. apply IH. exact Hrest.
Qed.

(** Without a port it keeps the whole host. *)
Lemma split_colon_0_plain (host : string) :
  no_colon host -> split_colon_0 host = host.
Proof.
  induction host as [| c rest IH]; simpl.
  - reflexivity.
  - intros [Hc Hrest]. apply Ascii.eqb_neq in Hc. rewrite Hc.
    f_equal. apply IH. exact Hrest.
Qed.

Section AuthorFacts.

Context {Database CacheValue : Type}.
Variable delivers : AdminMail -> bool.

(** With [fail_silently] the call of [mail_admins] never raises, delivered
    or not; it is recorded once. *)
Lemma mail_admins_silently (subj msg : string) (w : World Database CacheValue) :
  mail_admins delivers subj msg true w
  = Ok (mkWorld (database w) (cache w)
          (admin_mails w ++ [mkAdminMail subj msg true])%list).
Proof. unfold mail_admins. rewrite orb_true_r. reflexivity. Qed.

(** C5, amended.  With the permission to add ingredients the status becomes
    accepted and a missing author becomes the host without its port; nothing
    is mailed.  Without the permission the status is left as it was, a
    missing author becomes the user name while an author already present is
    kept, and [mail_admins] is called exactly once, with [fail_silently],
    so that a failed delivery does not raise. *)
Theorem set_author_outcome (self : Ingredient) (request : HttpRequest)
    (w : World Database CacheValue) :
  if has_perm (user request) "nutrition.add_ingredient" then
    exists self',
      set_author delivers self request w = Ok (self', w) /\
      status self' = STATUS_ACCEPTED /\
      license_author self' = author_or self (split_colon_0 (get_host request))
  else
    exists self' w',
      set_author delivers self request w = Ok (self', w') /\
      status self' = status self /\
      license_author self' = author_or self (username (user request)) /\
      admin_mails w' =
        (admin_mails w ++
         [mkAdminMail "New user submitted ingredient"
            (submission_message (username (user request)) (name self)) true])%list /\
      database w' = database w /\ cache w' = cache w.
Proof.
  unfold set_author, author_or.
  destruct (has_perm (user request) "nutrition.add_ingredient").
  - destruct (truthy_str (license_author self)) eqn:Ha; simpl; rewrite Ha; simpl;
      eexists; repeat split.
  - rewrite mail_admins_silently.
    destruct (truthy_str (license_author self)) eqn:Ha; simpl;
      do 2 eexists; repeat split.
Qed.

End AuthorFacts.

(** C5, as stated, fails: bob, who may not add ingredients, submits a record
    whose author is already alice; the author stays alice. *)
Lemma set_author_keeps_alice :
  has_perm (user request_bob) "nutrition.add_ingredient" = false /\
  exists self' w',
    set_author never_delivers ingredient_of_alice request_bob sample_world
    = Ok (self', w') /\
    license_author self' = Some "alice" /\
    license_author self' <> Some (username (user request_bob)).
Proof.
  split; [reflexivity |].
  do 2 eexists. split; [reflexivity |]. split; [reflexivity | discriminate].
Qed.

(** ** fetch_ingredient_from_off *)

Section FetchFacts.

Context {Database CacheValue Language : Type}.
Variable Model_save :
  Ingredient -> World Database CacheValue ->
  Result Exception (Ingredient * World Database CacheValue).
Variable get_ingredient_key : option Z -> string.
Variable get_product : string -> Result Exception PyVal.
Variable OFF_SEARCH_PRODUCT_FOUND : PyVal.
Variable load_language :
  PyVal -> World Database CacheValue ->
  Result Exception Language * World Database CacheValue.
Variable extract_info_from_off : PyVal -> Language -> Result Exception PyVal.
Variable Ingredient_init : PyVal -> Result Exception Ingredient.

Local Abbreviation fetch :=
  (fetch_ingredient_from_off Model_save get_ingredient_key get_product
     OFF_SEARCH_PRODUCT_FOUND load_language extract_info_from_off Ingredient_init).
Local Abbreviation extract := (extraction load_language extract_info_from_off).

(** The three ways of a missing key inside the [try] block: the product has
    no ['lang'], or the language lookup or the extraction raises
    [KeyError]. *)
Lemma extraction_KeyError (product : PyVal) (w : World Database CacheValue) :
  py_getitem product "lang" = Raise KeyError \/
  (exists lang, py_getitem product "lang" = Ok lang /\
                fst (load_language lang w) = Raise KeyError) \/
  (exists lang language, py_getitem product "lang" = Ok lang /\
                         fst (load_language lang w) = Ok language /\
                         extract_info_from_off product language = Raise KeyError) ->
  fst (extract product w) = Raise KeyError.
Proof.
  unfold extraction.
  intros [H | [(lang & H1 & H2) | (lang & language & H1 & H2 & H3)]].
  - rewrite H. reflexivity.
  - rewrite H1. destruct (load_language lang w) as [loaded w']. simpl in H2.
    rewrite H2. reflexivity.
  - rewrite H1. destruct (load_language lang w) as [loaded w']. simpl in H2.
    rewrite H2. exact H3.
Qed.

(** A product dictionary without the key ['lang'] is such a case. *)
Lemma extraction_without_lang (items : list (string * PyVal))
    (w : World Database CacheValue) :
  dict_get items "lang" = None -> fst (extract (PDict items) w) = Raise KeyError.
Proof.
  intros H. apply extraction_KeyError. left. simpl. rewrite H. reflexivity.
Qed.

(** The [try] block leaves the world as it was, or as the language lookup
    left it. *)
Lemma extraction_world (product : PyVal) (w : World Database CacheValue) :
  snd (extract product w) = w \/
  exists lang, py_getitem product "lang" = Ok lang /\
               snd (extract product w) = snd (load_language lang w).
Proof.
  unfold extraction.
  destruct (py_getitem product "lang") as [lang | e]; [| left; reflexivity].
  right. exists lang. split; [reflexivity |].
  destruct (load_language lang w) as [[language | e] w']; reflexivity.
Qed.

(** What the lookup does once the product was found. *)
Lemma fetch_found (barcode : string) (w : World Database CacheValue)
    (result found product : PyVal) :
  get_product barcode = Ok result ->
  py_getitem result "status" = Ok found ->
  py_ne found OFF_SEARCH_PRODUCT_FOUND = false ->
  py_getitem result "product" = Ok product ->
  fetch barcode w =
  match extract product w with
  | (Raise KeyError, w1) => Ok (None, w1)
  | (Raise e, _) => Raise e
  | (Ok ingredient_data, w1) =>
      try! nm <- py_getitem ingredient_data "name";
      if negb (py_truthy nm) then Ok (None, w1) else
      try! cn <- py_getitem ingredient_data "common_name";
      if negb (py_truthy cn) then Ok (None, w1) else
      try! ingredient <- Ingredient_init ingredient_data;
      try! r <- save Model_save get_ingredient_key ingredient w1;
      Ok (Some (fst r), snd r)
  end.
Proof.
  intros Hr Hs Hne Hp. unfold fetch_ingredient_from_off.
  rewrite Hr. simpl. rewrite Hs. simpl. rewrite Hne, Hp. reflexivity.
Qed.

(** A record is returned only after the whole path was taken: product
    found, extraction done, both names usable, instance built and saved. *)
Lemma fetch_created_inv (barcode : string) (w w' : World Database CacheValue)
    (ing : Ingredient) :
  fetch barcode w = Ok (Some ing, w') ->
  exists result found product data w1 nm cn ing0,
    get_product barcode = Ok result /\
    py_getitem result "status" = Ok found /\
    py_ne found OFF_SEARCH_PRODUCT_FOUND = false /\
    py_getitem result "product" = Ok product /\
    extract product w = (Ok data, w1) /\
    py_getitem data "name" = Ok nm /\ py_truthy nm = true /\
    py_getitem data "common_name" = Ok cn /\ py_truthy cn = true /\
    Ingredient_init data = Ok ing0 /\
    save Model_save get_ingredient_key ing0 w1 = Ok (ing, w').
Proof.
  unfold fetch_ingredient_from_off. intros H.
  destruct (get_product barcode) as [result | e] eqn:Hr; simpl in H; [| discriminate].
  destruct (py_getitem result "status") as [found | e] eqn:Hs; simpl in H; [| discriminate].
  destruct (py_ne found OFF_SEARCH_PRODUCT_FOUND) eqn:Hne; [discriminate |].
  destruct (py_getitem result "product") as [product | e] eqn:Hp; simpl in H; [| discriminate].
  destruct (extract product w) as [[data | e] w1] eqn:He; [| destruct e; discriminate].
  destruct (py_getitem data "name") as [nm | e] eqn:Hn; simpl in H; [| discriminate].
  destruct (py_truthy nm) eqn:Htn; simpl in H; [| discriminate].
  destruct (py_getitem data "common_name") as [cn | e] eqn:Hc; simpl in H; [| discriminate].
  destruct (py_truthy cn) eqn:Htc; simpl in H; [| discriminate].
  destruct (Ingredient_init data) as [ing0 | e] eqn:Hi; simpl in H; [| discriminate].
  destruct (save Model_save get_ingredient_key ing0 w1) as [[i1 w2] | e] eqn:Hsv;
    simpl in H; [| discriminate].
  injection H as <- <-.
  exists result, found, product, data, w1, nm, cn, ing0. repeat split; assumption.
Qed.

(** C6: when the answer of the product database has a status different from
    the "found" value, the lookup returns [None], leaves the store, the
    cache and the mail as they were, and raises nothing. *)
Theorem fetch_not_found (barcode : string) (w : World Database CacheValue)
    (result found : PyVal) :
  get_product barcode = Ok result ->
  py_getitem result "status" = Ok found ->
  py_ne found OFF_SEARCH_PRODUCT_FOUND = true ->
  fetch barcode w = Ok (None, w).
Proof.
  intros Hr Hs Hne. unfold fetch_ingredient_from_off.
  rewrite Hr. simpl. rewrite Hs. simpl. rewrite Hne. reflexivity.
Qed.

(** C7, amended: for an answer with the "found" status,
    - without the key ['product'] the lookup raises what the subscription
      raises, [KeyError];
    - a missing key during extraction (the [try] block) makes it return
      [None], with the world as the language lookup left it;
    - extracted data without the key ['name'], or with a usable name and
      without the key ['common_name'], make it raise [KeyError];
    - a name that is not usable, or a common name that is not, make it
      return [None];
    - a record is returned exactly when extraction yields both names and
      the instance built from them is saved, and it is that saved
      instance. *)
Theorem fetch_extraction (barcode : string) (w : World Database CacheValue)
    (result found : PyVal) :
  get_product barcode = Ok result ->
  py_getitem result "status" = Ok found ->
  py_ne found OFF_SEARCH_PRODUCT_FOUND = false ->
  (forall e, py_getitem result "product" = Raise e -> fetch barcode w = Raise e) /\
  (forall product w1,
     py_getitem result "product" = Ok product ->
     (extract product w = (Raise KeyError, w1) -> fetch barcode w = Ok (None, w1)) /\
     (forall data,
        extract product w = (Ok data, w1) ->
        (forall e, py_getitem data "name" = Raise e -> fetch barcode w = Raise e) /\
        (forall nm,
           py_getitem data "name" = Ok nm -> py_truthy nm = false ->
           fetch barcode w = Ok (None, w1)) /\
        (forall nm,
           py_getitem data "name" = Ok nm -> py_truthy nm = true ->
           (forall e, py_getitem data "common_name" = Raise e ->
                      fetch barcode w = Raise e) /\
           (forall cn,
              py_getitem data "common_name" = Ok cn -> py_truthy cn = false ->
              fetch barcode w = Ok (None, w1))))) /\
  (forall ing w',
     fetch barcode w = Ok (Some ing, w') <->
     exists product data w1 nm cn ing0,
       py_getitem result "product" = Ok product /\
       extract product w = (Ok data, w1) /\
       py_getitem data "name" = Ok nm /\ py_truthy nm = true /\
       py_getitem data "common_name" = Ok cn /\ py_truthy cn = true /\
       Ingredient_init data = Ok ing0 /\
       save Model_save get_ingredient_key ing0 w1 = Ok (ing, w')).
Proof.
  intros Hr Hs Hne. split; [| split].
  - intros e Hp. unfold fetch_ingredient_from_off.
    rewrite Hr. simpl. rewrite Hs. simpl. rewrite Hne, Hp. reflexivity.
  - intros product w1 Hp.
    rewrite (fetch_found barcode w result found product Hr Hs Hne Hp).
    split; [intros ->; reflexivity |].
    intros data ->. split; [| split].
    + intros e Hn. simpl. rewrite Hn. reflexivity.
    + intros nm Hn Ht. simpl. rewrite Hn. simpl. rewrite Ht. reflexivity.
    + intros nm Hn Ht. split.
      * intros e Hc. simpl. rewrite Hn. simpl. rewrite Ht. simpl. rewrite Hc. reflexivity.
      * intros cn Hc Htc. simpl.
        rewrite Hn. simpl. rewrite Ht. simpl. rewrite Hc. simpl. rewrite Htc. reflexivity.
  - intros ing w'. split.
    + intros H. apply fetch_created_inv in H.
      destruct H as (result' & found' & product & data & w1 & nm & cn & ing0 &
                     Hr' & Hs' & _ & Hp & Hrest).
      assert (result' = result) as -> by congruence.
      exists product, data, w1, nm, cn, ing0. split; assumption.
    + intros (product & data & w1 & nm & cn & ing0 &
              Hp & He & Hn & Ht & Hc & Htc & Hi & Hsv).
      rewrite (fetch_found barcode w result found product Hr Hs Hne Hp).
      rewrite He. simpl. rewrite Hn. simpl. rewrite Ht. simpl.
      rewrite Hc. simpl. rewrite Htc. simpl. rewrite Hi. simpl. rewrite Hsv. reflexivity.
Qed.

End FetchFacts.

Lemma fetch_not_found_witness :
  sample_fetch "0000" sample_world = Ok (None, sample_world).
Proof.
  apply (fetch_not_found sample_Model_save sample_key sample_get_product (PInt 1)
           sample_load_language sample_extract sample_init "0000" sample_world
           (PDict [("status", PInt 0); ("status_verbose", PStr "product not found")])
           (PInt 0));
    reflexivity.
Defined.

(** C7, as stated, fails where the missing key is read outside the [try]
    block: an answer with the "found" status and no ['product'], and
    extracted data with a name and no ['common_name'], both make the lookup
    raise [KeyError] instead of returning. *)
Lemma fetch_missing_key_raises :
  (py_getitem (PDict [("status", PInt 1)]) "product" = Raise KeyError /\
   fetch_ingredient_from_off sample_Model_save sample_key sample_get_product_bare (PInt 1)
     sample_load_language sample_extract sample_init "4001" sample_world
   = Raise KeyError) /\
  (extraction sample_load_language sample_extract_name sample_product sample_world
   = (Ok (PDict [("name", PStr "Oat flakes")]), sample_world) /\
   fetch_ingredient_from_off sample_Model_save sample_key sample_get_product (PInt 1)
     sample_load_language sample_extract_name sample_init "4001" sample_world
   = Raise KeyError).
Proof. repeat split. Qed.

Lemma fetch_extraction_witness :
  exists product data w1 nm cn ing0,
    py_getitem (PDict [("status", PInt 1); ("product", sample_product)]) "product"
    = Ok product /\
    extraction sample_load_language sample_extract product sample_world = (Ok data, w1) /\
    py_getitem data "name" = Ok nm /\ py_truthy nm = true /\
    py_getitem data "common_name" = Ok cn /\ py_truthy cn = true /\
    sample_init data = Ok ing0 /\
    save sample_Model_save sample_key ing0 w1 = Ok (sample_oats, sample_world_oats).
Proof.
  apply (fetch_extraction sample_Model_save sample_key sample_get_product (PInt 1)
           sample_load_language sample_extract sample_init "4001" sample_world
           (PDict [("status", PInt 1); ("product", sample_product)]) (PInt 1)
           eq_refl eq_refl eq_refl).
  vm_compute. reflexivity.
Defined.

(** ** __eq__ and __hash__ *)

(** Once [equal] is [False] it stays so. *)
Lemma eq_loop_false (a b : Ingredient) (names : list string) :
  eq_loop a b names false = false.
Proof.
  induction names as [| i rest IH]; simpl.
  - reflexivity.
  - destruct (hasattr a i && hasattr b i
              && py_ne (getattr_default a i) (getattr_default b i)); exact IH.
Qed.

(** The loop answers [True] exactly when no name is held by both sides with
    different values. *)
Lemma eq_loop_true_iff (a b : Ingredient) (names : list string) :
  eq_loop a b names true = true <->
  Forall (fun i => hasattr a i && hasattr b i
                   && py_ne (getattr_default a i) (getattr_default b i) = false) names.
Proof.
  induction names as [| i rest IH]; simpl.
  - split; [constructor | reflexivity].
  - destruct (hasattr a i && hasattr b i
              && py_ne (getattr_default a i) (getattr_default b i)) eqn:Hd.
    + rewrite eq_loop_false. split; [discriminate |].
      intros H. inversion H; subst. congruence.
    + rewrite IH. split.
      * intros H. constructor; assumption.
      * intros H. inversion H; subst. assumption.
Qed.

Lemma Deqb_refl (d : Decimal) : Deqb d d = true.
Proof. unfold Deqb. apply Z.eqb_refl. Qed.

Lemma py_eqb_decimal_refl (x : option Decimal) : py_eqb (of_decimal x) (of_decimal x) = true.
Proof. destruct x; simpl; [apply Deqb_refl | reflexivity]. Qed.

Lemma py_eqb_integer_refl (x : option Z) : py_eqb (of_integer x) (of_integer x) = true.
Proof. destruct x; simpl; [apply Deqb_refl | reflexivity]. Qed.

Lemma py_eqb_string_refl (s : string) : py_eqb (PStr s) (PStr s) = true.
Proof. simpl. apply String.eqb_refl. Qed.

(** [__eq__] between ingredients is agreement on the nine attributes. *)
Lemma eq_same_values (a b : Ingredient) :
  __eq__ a (IngredientObject b) = true <-> same_values a b.
Proof.
  unfold __eq__. rewrite eq_loop_true_iff. unfold compared_attributes, same_values.
  repeat rewrite Forall_cons_iff. rewrite Forall_nil_iff.
  unfold hasattr, getattr_default, getattr, py_ne. simpl.
  repeat rewrite negb_false_iff. tauto.
Qed.

(** C8: [__eq__] compares values.  Between ingredients it holds exactly when
    they agree on carbohydrates, carbohydrates_sugar, energy, fat,
    fat_saturated, fibres, name, protein and sodium, so in particular when
    these attributes are the same, whatever the primary keys, uuids and
    codes; against any other object it is [False].  As [__hash__] is the hash
    of the primary key, [twin_1] and [twin_2] are equal with different
    hashes.  No ingredient has the attribute ['creation_date'], and dropping
    it from the loop changes nothing. *)
Theorem eq_by_value :
  (forall a b, __eq__ a (IngredientObject b) = true <-> same_values a b) /\
  (forall a b,
     carbohydrates a = carbohydrates b ->
     carbohydrates_sugar a = carbohydrates_sugar b ->
     energy a = energy b -> fat a = fat b -> fat_saturated a = fat_saturated b ->
     fibres a = fibres b -> name a = name b -> protein a = protein b ->
     sodium a = sodium b ->
     __eq__ a (IngredientObject b) = true) /\
  (forall a v, __eq__ a (OtherObject v) = false) /\
  (forall hash_None,
     __eq__ twin_1 (IngredientObject twin_2) = true /\
     pk twin_1 <> pk twin_2 /\ uuid twin_1 <> uuid twin_2 /\ code twin_1 <> code twin_2 /\
     __hash__ hash_None twin_1 <> __hash__ hash_None twin_2) /\
  (forall a b,
     hasattr a "creation_date" = false /\
     __eq__ a (IngredientObject b) = eq_loop a b attributes_present true).
Proof.
  split; [exact eq_same_values |].
  split.
  { intros a b H1 H2 H3 H4 H5 H6 H7 H8 H9. apply eq_same_values.
    unfold same_values. rewrite H1, H2, H3, H4, H5, H6, H7, H8, H9.
    repeat split;
      first [apply py_eqb_decimal_refl | apply py_eqb_integer_refl | apply py_eqb_string_refl]. }
  split; [reflexivity |].
  split.
  { intros hash_None.
    split; [vm_compute; reflexivity |].
    repeat split; intros H; vm_compute in H; discriminate H. }
  intros a b. split; reflexivity.
Qed.

Lemma eq_by_value_witness :
  __eq__ ingredient_80 (IngredientObject sample_saved) = true.
Proof.
  apply (proj1 (proj2 eq_by_value) ingredient_80 sample_saved); reflexivity.
Defined.

(** ** index *)

Section IndexFacts.

Variable reverse : string -> Result Exception string.

(** C9: [index] never answers with a rendered page, only with a redirect;
    with the two view names registered, it redirects an authenticated user
    to the dashboard and anybody else to the page of the software's
    features. *)
Theorem index_redirects (request : HttpRequest) (dashboard features : string) :
  reverse "core:dashboard" = Ok dashboard ->
  reverse "software:features" = Ok features ->
  index reverse request =
    Ok (HttpResponseRedirect
          (if is_authenticated (user request) then dashboard else features)) /\
  (forall template, index reverse request <> Ok (RenderedResponse template)).
Proof.
  intros Hd Hf. unfold index.
  destruct (is_authenticated (user request)).
  - rewrite Hd. simpl. split; [reflexivity | discriminate].
  - rewrite Hf. simpl. split; [reflexivity | discriminate].
Qed.

(** Whatever the URL table, an answer of [index] is a redirect. *)
Lemma index_never_renders (request : HttpRequest) (response : HttpResponse) :
  index reverse request = Ok response -> exists url, response = HttpResponseRedirect url.
Proof.
  unfold index. destruct (is_authenticated (user request)).
  - destruct (reverse "core:dashboard"); simpl; [| discriminate].
    intros H. injection H as <-. eauto.
  - destruct (reverse "software:features"); simpl; [| discriminate].
    intros H. injection H as <-. eauto.
Qed.

End IndexFacts.

Lemma index_redirects_witness :
  (index sample_reverse request_bob = Ok (HttpResponseRedirect "/dashboard") /\
   (forall template, index sample_reverse request_bob <> Ok (RenderedResponse template))) /\
  (index sample_reverse request_anonymous = Ok (HttpResponseRedirect "/software/features") /\
   (forall template,
      index sample_reverse request_anonymous <> Ok (RenderedResponse template))).
Proof.
  split.
  - apply (index_redirects sample_reverse request_bob "/dashboard" "/software/features");
      reflexivity.
  - apply (index_redirects sample_reverse request_anonymous "/dashboard" "/software/features");
      reflexivity.
Defined.

(** ** energy_kilojoule *)

(** On sample energies the products of the float model are those of the
    machine's binary64 multiplication. *)
Example product_agrees :
  map product_here [1; 5; 7; 100; 372; 123456789; 2147483647; 1000000000000001]
  = map product_machine [1; 5; 7; 100; 372; 123456789; 2147483647; 1000000000000001].
Proof. vm_compute. reflexivity. Qed.

(** The literal is the binary64 number nearest to 4.184: it is within half a
    unit of the last place. *)
Example float_4_184_nearest :
  Z.abs (mant float_4_184 * 1000 - 4184 * 2 ^ 50) * 2 <= 1000 /\
  to_spec_float float_4_184 = Prim2SF 4.184%float.
Proof. split; [vm_compute; discriminate | vm_compute; reflexivity]. Qed.

Lemma div_half_even_bounds (n d : Z) :
  0 <= n -> 0 < d ->
  0 <= div_half_even n d /\ - d <= 2 * n - 2 * div_half_even n d * d <= d.
Proof.
  intros Hn Hd. unfold div_half_even.
  pose proof (Z.div_mod n d ltac:(lia)) as Hdm.
  pose proof (Z.mod_pos_bound n d Hd) as Hr.
  pose proof (Z.div_pos n d Hn Hd) as Hq.
  destruct (2 * (n mod d) <? d) eqn:H1; [apply Z.ltb_lt in H1; lia |].
  apply Z.ltb_ge in H1.
  destruct (d <? 2 * (n mod d)) eqn:H2; [apply Z.ltb_lt in H2; lia |].
  apply Z.ltb_ge in H2.
  destruct (Z.even (n / d)); lia.
Qed.

Lemma div_half_even_unique (n d R : Z) :
  0 <= n -> 0 < d -> - d < 2 * n - 2 * R * d < d -> div_half_even n d = R.
Proof.
  intros Hn Hd HR. unfold div_half_even.
  pose proof (Z.div_mod n d ltac:(lia)) as Hdm.
  pose proof (Z.mod_pos_bound n d Hd) as Hr.
  assert (n / d = R \/ n / d = R - 1) as Hcases by nia.
  destruct Hcases as [Hc | Hc].
  - assert (2 * (n mod d) < d) as H1 by nia.
    apply Z.ltb_lt in H1. rewrite H1. exact Hc.
  - assert (d < 2 * (n mod d)) as H2 by nia.
    assert ((2 * (n mod d) <? d) = false) as H1 by (apply Z.ltb_ge; lia).
    apply Z.ltb_lt in H2. rewrite H1, H2. lia.
Qed.

(** 4184 a is even, so its nearest multiple of 10 is at distance at most 4. *)
Lemma tenth_distance (a : Z) :
  0 <= a ->
  -4 <= a * 4184 - 10 * div_half_even (a * 4184) 10 <= 4.
Proof.
  intros Ha.
  pose proof (div_half_even_bounds (a * 4184) 10 ltac:(lia) ltac:(lia)) as [_ Hb].
  lia.
Qed.

Lemma kilojoule_rounding (a s : Z) :
  1 <= a <= 2 ^ 31 -> 0 <= s <= 31 ->
  div_half_even (div_half_even (a * 4710765210229539) (2 ^ s) * 5 ^ (50 - s))
                (10 ^ (48 - s))
  = div_half_even (a * 4184) 10.
Proof.
  intros Ha Hs.
  set (q := div_half_even (a * 4710765210229539) (2 ^ s)).
  set (R := div_half_even (a * 4184) 10).
  assert (0 < 2 ^ s) as HA by (apply Z.pow_pos_nonneg; lia).
  assert (2 ^ s <= 2 ^ 31) as HA31 by (apply Z.pow_le_mono_r; lia).
  assert (0 < 2 ^ (48 - s)) as HB by (apply Z.pow_pos_nonneg; lia).
  assert (0 < 5 ^ (48 - s)) as HC by (apply Z.pow_pos_nonneg; lia).
  assert (2 ^ s * 2 ^ (48 - s) = 2 ^ 48) as HAB
    by (rewrite <- Z.pow_add_r by lia; f_equal; lia).
  assert (10 ^ (48 - s) = 2 ^ (48 - s) * 5 ^ (48 - s)) as HD
    by (rewrite <- Z.pow_mul_l; reflexivity).
  assert (5 ^ (50 - s) = 5 ^ (48 - s) * 25) as HX
    by (replace (50 - s) with (48 - s + 2) by lia; rewrite Z.pow_add_r by lia; reflexivity).
  pose proof (div_half_even_bounds (a * 4710765210229539) (2 ^ s) ltac:(lia) HA) as [Hq0 Hq].
  pose proof (tenth_distance a ltac:(lia)) as HR.
  fold q in Hq0, Hq. fold R in HR.
  change (2 ^ 31) with 2147483648 in *.
  change (2 ^ 48) with 281474976710656 in *.
  rewrite HD, HX.
  set (A := 2 ^ s) in *. set (B := 2 ^ (48 - s)) in *. set (C := 5 ^ (48 - s)) in *.
  clearbody q R A B C. clear HD HX.
  assert (- B < 50 * q - 2 * R * B < B) as Hkey.
  { assert (- (A * B) < 50 * (q * A) - 2 * R * (A * B) < A * B) as Hscaled
      by (rewrite HAB; lia).
    nia. }
  apply div_half_even_unique.
  - nia.
  - nia.
  - nia.
Qed.

Lemma div_half_even_1 (n : Z) : div_half_even n 1 = n.
Proof. unfold div_half_even. rewrite Z.div_1_r, Z.mod_1_r. reflexivity. Qed.

Lemma bits_le (n k : Z) : 0 <= n < 2 ^ k -> 0 <= k -> bits n <= k.
Proof.
  intros Hn Hk. unfold bits. destruct (Z.eqb_spec n 0) as [-> | Hne]; [lia |].
  assert (Z.log2 n < k) by (apply Z.log2_lt_pow2; lia). lia.
Qed.

Lemma bits_ge (n k : Z) : 2 ^ k <= n -> 0 <= k -> k + 1 <= bits n.
Proof.
  intros Hn Hk. unfold bits.
  assert (0 < 2 ^ k) by (apply Z.pow_pos_nonneg; lia).
  destruct (Z.eqb_spec n 0) as [-> | Hne]; [lia |].
  assert (k <= Z.log2 n) by (apply Z.log2_le_pow2; lia). lia.
Qed.

Lemma bits_nonneg (n : Z) : 0 <= bits n.
Proof.
  unfold bits. destruct (n =? 0); [lia |]. pose proof (Z.log2_nonneg n). lia.
Qed.

Lemma float_of_int_small (e : Z) :
  Z.abs e < 2 ^ 53 -> float_of_int e = Ok (mkFloat e 0).
Proof.
  intros He. unfold float_of_int, round_binary64, overflows. cbn [mant fexp].
  pose proof (bits_le (Z.abs e) 53 ltac:(lia) ltac:(lia)) as Hb.
  pose proof (bits_nonneg (Z.abs e)) as Hb0.
  replace (Z.max 0 (Z.max (bits (Z.abs e) - 53) (-1074 - 0))) with 0 by lia.
  change (2 ^ 0) with 1. rewrite div_half_even_1.
  replace (Z.sgn e * Z.abs e) with e by lia.
  replace (0 + 0) with 0 by lia.
  destruct (Z.ltb_spec 1024 (bits (Z.abs e) + 0)); [lia | reflexivity].
Qed.

Lemma float_mul_4_184 (e : Z) :
  1 <= Z.abs e <= 2 ^ 31 ->
  exists s, 0 <= s <= 31 /\
    float_mul (mkFloat e 0) float_4_184
    = Some (mkFloat (Z.sgn e * div_half_even (Z.abs e * 4710765210229539) (2 ^ s)) (s - 50)).
Proof.
  intros He. unfold float_mul, round_binary64, overflows, float_4_184. cbn [mant fexp].
  assert (Z.abs (e * 4710765210229539) = Z.abs e * 4710765210229539) as -> by lia.
  assert (Z.sgn (e * 4710765210229539) = Z.sgn e) as -> by lia.
  set (n := Z.abs e * 4710765210229539).
  assert (2 ^ 52 <= n < 2 ^ 84) as Hn.
  { unfold n. change (2 ^ 52) with 4503599627370496.
    change (2 ^ 84) with 19342813113834066795298816.
    change (2 ^ 31) with 2147483648 in He. lia. }
  pose proof (bits_ge n 52 ltac:(lia) ltac:(lia)) as Hlo.
  pose proof (bits_le n 84 ltac:(lia) ltac:(lia)) as Hhi.
  set (s := bits n - 53) in *.
  replace (Z.max 0 (Z.max s (-1074 - (0 + -50)))) with s by lia.
  exists s. split; [lia |].
  assert (0 < 2 ^ s) as HA by (apply Z.pow_pos_nonneg; lia).
  pose proof (div_half_even_bounds n (2 ^ s) ltac:(lia) HA) as [Hq0 Hq].
  set (q := div_half_even n (2 ^ s)) in *.
  assert (q < 2 ^ 85) as Hq85.
  { change (2 ^ 85) with 38685626227668133590597632.
    change (2 ^ 84) with 19342813113834066795298816 in Hn. nia. }
  assert (Z.abs (Z.sgn e * q) = q) as -> by nia.
  pose proof (bits_le q 85 ltac:(lia) ltac:(lia)) as Hbq.
  destruct (Z.ltb_spec 1024 (bits q + (0 + -50 + s))); [lia |].
  do 2 f_equal. lia.
Qed.

Lemma exact_kilojoule_value (e : Z) :
  Z.abs e <= 2 ^ 31 ->
  exact_kilojoule e
  = Ok (mkDecimal (Z.sgn e * div_half_even (Z.abs e * 4184) 10) (-2)).
Proof.
  intros He. change (2 ^ 31) with 2147483648 in He.
  unfold exact_kilojoule, quantize, Dmul, of_int, TWOPLACES. cbn [coef expo].
  change (-2 <=? 0 + -3) with false. cbv iota.
  change (10 ^ (-2 - (0 + -3))) with 10.
  assert (Z.abs (e * 4184) = Z.abs e * 4184) as -> by lia.
  assert (Z.sgn (e * 4184) = Z.sgn e) as -> by lia.
  pose proof (tenth_distance (Z.abs e) ltac:(lia)) as HR.
  pose proof (div_half_even_bounds (Z.abs e * 4184) 10 ltac:(lia) ltac:(lia)) as [HR0 _].
  set (R := div_half_even (Z.abs e * 4184) 10) in *.
  change (10 ^ 28) with 10000000000000000000000000000.
  destruct (Z.leb_spec 10000000000000000000000000000 (Z.abs (Z.sgn e * R))); [nia | reflexivity].
Qed.

Lemma quantize_float_product (e s : Z) :
  1 <= Z.abs e <= 2 ^ 31 -> 0 <= s <= 31 ->
  quantize
    (Decimal_of_float
       (mkFloat (Z.sgn e * div_half_even (Z.abs e * 4710765210229539) (2 ^ s)) (s - 50)))
    TWOPLACES
  = Ok (mkDecimal (Z.sgn e * div_half_even (Z.abs e * 4184) 10) (-2)).
Proof.
  intros He Hs.
  pose proof (kilojoule_rounding (Z.abs e) s He Hs) as Hround.
  assert (0 < 2 ^ s) as HA by (apply Z.pow_pos_nonneg; lia).
  assert (2 ^ s <= 2 ^ 31) as HA31 by (apply Z.pow_le_mono_r; lia).
  assert (0 < 5 ^ (50 - s)) as H5 by (apply Z.pow_pos_nonneg; lia).
  pose proof (div_half_even_bounds (Z.abs e * 4710765210229539) (2 ^ s)
                ltac:(lia) HA) as [Hq0 Hq].
  pose proof (tenth_distance (Z.abs e) ltac:(lia)) as HR.
  pose proof (div_half_even_bounds (Z.abs e * 4184) 10 ltac:(lia) ltac:(lia)) as [HR0 _].
  change (2 ^ 31) with 2147483648 in *.
  unfold quantize, Decimal_of_float, TWOPLACES. cbn [mant fexp coef expo].
  destruct (Z.leb_spec 0 (s - 50)) as [Hbad | _]; [lia |]. cbn [coef expo].
  destruct (Z.leb_spec (-2) (s - 50)) as [Hbad | _]; [lia |].
  replace (- (s - 50)) with (50 - s) by lia.
  replace (-2 - (s - 50)) with (48 - s) by lia.
  set (q := div_half_even (Z.abs e * 4710765210229539) (2 ^ s)) in *.
  set (R := div_half_even (Z.abs e * 4184) 10) in *.
  assert (0 < q) as Hqpos by nia.
  assert (Z.abs (Z.sgn e * q * 5 ^ (50 - s)) = q * 5 ^ (50 - s)) as -> by nia.
  assert (Z.sgn (Z.sgn e * q * 5 ^ (50 - s)) = Z.sgn e) as -> by nia.
  rewrite Hround.
  change (10 ^ 28) with 10000000000000000000000000000.
  destruct (Z.leb_spec 10000000000000000000000000000 (Z.abs (Z.sgn e * R))); [nia | reflexivity].
Qed.


(** The float in between is harmless on the integer field: the property is
    the exact product quantized. *)
Lemma energy_kilojoule_in_range (self : Ingredient) (e : Z) :
  energy self = Some e -> - 2 ^ 31 <= e <= 2 ^ 31 - 1 -> e <> 0 ->
  energy_kilojoule self = exact_kilojoule e /\
  exact_kilojoule e = Ok (mkDecimal (Z.sgn e * div_half_even (Z.abs e * 4184) 10) (-2)).
Proof.
  intros Hen Hr Hne.
  assert (1 <= Z.abs e <= 2 ^ 31) as Habs by lia.
  rewrite exact_kilojoule_value by lia. split; [| reflexivity].
  unfold energy_kilojoule. rewrite Hen. unfold truthy_int.
  destruct (Z.eqb_spec e 0) as [-> | _]; [congruence |]. cbn [negb].
  rewrite float_of_int_small by (change (2 ^ 53) with 9007199254740992;
                                 change (2 ^ 31) with 2147483648 in Habs; lia).
  cbn [rbind].
  destruct (float_mul_4_184 e Habs) as (s & Hs & ->).
  apply quantize_float_product; assumption.
Qed.

(** C10, as stated, fails: for an energy of 24 * 10^24 the quantized product
    would need more than 28 digits and [quantize] raises. *)
Lemma energy_kilojoule_huge_raises :
  energy_kilojoule ingredient_huge = Raise InvalidOperation.
Proof. vm_compute. reflexivity. Qed.

(** Beyond 53 bits the float shows: for 10^15 + 1 the property is
    4184000000000004.50, the exact product quantized 4184000000000004.18. *)
Example energy_kilojoule_inexact :
  energy_kilojoule (with_energy (Some (10 ^ 15 + 1)))
    = Ok (mkDecimal 418400000000000450 (-2)) /\
  exact_kilojoule (10 ^ 15 + 1) = Ok (mkDecimal 418400000000000418 (-2)).
Proof. split; vm_compute; reflexivity. Qed.

(** C10, amended: for an ingredient whose energy is absent or a value of the
    integer field, [energy_kilojoule] does not raise; it is the int 0 when
    the energy is absent or 0, and otherwise the energy times 4.184 rounded
    half-even to exactly two decimal places. *)
Theorem energy_kilojoule_value (self : Ingredient) :
  in_integer_field (energy self) ->
  (energy self = None \/ energy self = Some 0 -> energy_kilojoule self = Ok (of_int 0)) /\
  (forall e, energy self = Some e -> e <> 0 ->
     energy_kilojoule self = exact_kilojoule e /\
     exact_kilojoule e
     = Ok (mkDecimal (Z.sgn e * div_half_even (Z.abs e * 4184) 10) (-2))) /\
  (exists d, energy_kilojoule self = Ok d).
Proof.
  intros Hrange.
  assert (forall e, energy self = Some e -> e <> 0 ->
            energy_kilojoule self = exact_kilojoule e /\
            exact_kilojoule e
            = Ok (mkDecimal (Z.sgn e * div_half_even (Z.abs e * 4184) 10) (-2))) as Hnz.
  { intros e He Hne. apply energy_kilojoule_in_range; [exact He | | exact Hne].
    unfold in_integer_field in Hrange. rewrite He in Hrange. exact Hrange. }
  assert (energy self = None \/ energy self = Some 0 ->
          energy_kilojoule self = Ok (of_int 0)) as Hz.
  { unfold energy_kilojoule. intros [-> | ->]; reflexivity. }
  split; [exact Hz |]. split; [exact Hnz |].
  destruct (energy self) as [e |] eqn:He.
  - destruct (Z.eq_dec e 0) as [-> | Hne].
    + eexists. apply Hz. right. reflexivity.
    + destruct (Hnz e eq_refl Hne) as [H1 H2]. eexists. rewrite H1. exact H2.
  - eexists. apply Hz. left. reflexivity.
Qed.

Lemma energy_kilojoule_value_witness :
  energy_kilojoule ingredient_100 = exact_kilojoule 100 /\
  exact_kilojoule 100 = Ok (mkDecimal (Z.sgn 100 * div_half_even (Z.abs 100 * 4184) 10) (-2)).
Proof.
  apply (proj1 (proj2 (energy_kilojoule_value ingredient_100 ltac:(vm_compute; split; discriminate)))).
  - reflexivity.
  - discriminate.
Defined.

Example energy_kilojoule_100 :
  energy_kilojoule ingredient_100 = Ok (mkDecimal 41840 (-2)) /\
  str_Decimal (mkDecimal 41840 (-2)) = "418.40".
Proof. split; vm_compute; reflexivity. Qed.

(** * Further properties *)

(** ** clean: rejections and acceptances *)




Lemma energy_calculated_nothing (self : Ingredient) :
  truthy_decimal (protein self) = false ->
  truthy_decimal (carbohydrates self) = false ->
  truthy_decimal (fat self) = false ->
  energy_calculated self = Some (of_int 0).
Proof.
  unfold energy_calculated, energy_of, truthy_decimal. intros Hp Hc Hf.
  destruct (protein self) as [p |]; [rewrite Hp |];
    (destruct (carbohydrates self) as [c |]; [rewrite Hc |]);
    (destruct (fat self) as [f |]; [rewrite Hf |]); reflexivity.
Qed.

(** X2: a record that declares an energy of the integer field other than 0
    but no protein, no carbohydrates and no fat (each missing or zero) is
    rejected, and the message cites a computed energy of 0. *)
Theorem clean_no_macronutrients (self : Ingredient) (e : Z) :
  energy self = Some e -> e <> 0 -> in_integer_field (Some e) ->
  truthy_decimal (protein self) = false ->
  truthy_decimal (carbohydrates self) = false ->
  truthy_decimal (fat self) = false ->
  clean self = Raise (Invalid (MkValidationError (energy_message e (of_int 0)))).
Proof.
  intros He Hne Hrange Hp Hc Hf.
  rewrite (clean_energy_in_field self e (of_int 0) He Hne Hrange
             (energy_calculated_nothing self Hp Hc Hf)).
  destruct (Dgtb (exact_energy_upper e) (of_int 0)
            && Dgtb (of_int 0) (exact_energy_lower e)) eqn:Hb; [| reflexivity].
  apply band_test_value in Hb. destruct Hb as [H1 H2].
  rewrite Dvalue_of_int in H1, H2.
  unfold Qlt in H1, H2. simpl in H1, H2. lia.
Qed.

Lemma clean_no_macronutrients_witness :
  clean (with_energy (Some 100))
  = Raise (Invalid (MkValidationError (energy_message 100 (of_int 0)))).
Proof.
  apply (clean_no_macronutrients (with_energy (Some 100)) 100);
    first [reflexivity | discriminate | vm_compute; split; discriminate].
Defined.

(** X3: a record of values of the fields whose positive energy is exactly
    the energy of its macronutrients validates. *)
Theorem clean_exact_energy (self : Ingredient) (e : Z) :
  field_values self ->
  energy self = Some e -> 0 < e ->
  (macronutrient_energy (protein self) (carbohydrates self) (fat self) == inject_Z e)%Q ->
  clean self = Ok tt.
Proof.
  intros Hfield He Hpos Hs.
  rewrite (clean_field_values self e Hfield He ltac:(lia)).
  destruct (Dgtb (exact_energy_upper e) (exact_energy_calculated self)
            && Dgtb (exact_energy_calculated self) (exact_energy_lower e)) eqn:Hb;
    [reflexivity |].
  apply not_true_iff_false in Hb. destruct Hb. apply band_test.
  unfold within_band. rewrite Hs. unfold Qlt. simpl. lia.
Qed.

Lemma clean_exact_energy_witness :
  field_values ingredient_78 /\ clean ingredient_78 = Ok tt.
Proof.
  assert (field_values ingredient_78) as Hfield
    by (vm_compute; repeat split; discriminate).
  split; [exact Hfield |].
  apply (clean_exact_energy ingredient_78 78 Hfield); reflexivity.
Defined.

(** X4: on the values of the fields the verdict of [clean] depends on the
    numbers only: two records with the same energy whose protein,
    carbohydrates and fat are equal as numbers (5.0 and 5.000, a missing
    amount and 0) both pass or both fail. *)
Theorem clean_value_only (a b : Ingredient) :
  field_values a -> field_values b ->
  energy a = energy b ->
  (amount (protein a) == amount (protein b))%Q ->
  (amount (carbohydrates a) == amount (carbohydrates b))%Q ->
  (amount (fat a) == amount (fat b))%Q ->
  (clean a = Ok tt <-> clean b = Ok tt).
Proof.
  intros Ha Hb He Hp Hc Hf.
  assert (forall e,
    Dgtb (exact_energy_upper e) (exact_energy_calculated a)
    && Dgtb (exact_energy_calculated a) (exact_energy_lower e)
    = Dgtb (exact_energy_upper e) (exact_energy_calculated b)
      && Dgtb (exact_energy_calculated b) (exact_energy_lower e))
    as Hsame.
  { intros e. apply eq_true_iff_eq. rewrite !band_test.
    unfold within_band, macronutrient_energy. rewrite Hp, Hc, Hf. reflexivity. }
  destruct (energy a) as [e |] eqn:Hea.
  - symmetry in He. destruct (Z.eq_dec e 0) as [-> | Hne].
    + destruct Ha as (_ & Hpa & Hca & Hfa). destruct Hb as (_ & Hpb & Hcb & Hfb).
      unfold clean.
      rewrite (energy_calculated_exact a Hpa Hca Hfa), Hea.
      rewrite (energy_calculated_exact b Hpb Hcb Hfb), He. reflexivity.
    + rewrite (clean_field_values a e Ha Hea Hne), (clean_field_values b e Hb He Hne).
      rewrite Hsame.
      destruct (Dgtb (exact_energy_upper e) (exact_energy_calculated b)
                && Dgtb (exact_energy_calculated b) (exact_energy_lower e));
        [reflexivity | split; discriminate].
  - symmetry in He.
    destruct Ha as (_ & Hpa & Hca & Hfa). destruct Hb as (_ & Hpb & Hcb & Hfb).
    unfold clean.
    rewrite (energy_calculated_exact a Hpa Hca Hfa), Hea.
    rewrite (energy_calculated_exact b Hpb Hcb Hfb), He. reflexivity.
Qed.

Lemma clean_value_only_witness :
  (field_values twin_1 /\ field_values twin_2) /\
  (clean twin_1 = Ok tt <-> clean twin_2 = Ok tt).
Proof.
  assert (field_values twin_1) as H1 by (vm_compute; repeat split; discriminate).
  assert (field_values twin_2) as H2 by (vm_compute; repeat split; discriminate).
  split; [split; assumption |].
  apply (clean_value_only twin_1 twin_2 H1 H2); reflexivity.
Defined.

(** ** __eq__ is an equivalence *)

Lemma Deqb_sym (a b : Decimal) : Deqb a b = Deqb b a.
Proof. unfold Deqb. rewrite (Z.min_comm (expo a) (expo b)). apply Z.eqb_sym. Qed.

Lemma Deqb_trans (a b c : Decimal) :
  Deqb a b = true -> Deqb b c = true -> Deqb a c = true.
Proof.
  rewrite !Deqb_spec. intros H1 H2. rewrite H1. exact H2.
Qed.

Lemma py_eqb_scalar_sym (a b : PyVal) : scalar a -> scalar b -> py_eqb a b = py_eqb b a.
Proof.
  destruct a, b; simpl; intros Ha Hb; try contradiction; try reflexivity;
    try apply Deqb_sym; apply String.eqb_sym.
Qed.

Lemma py_eqb_scalar_trans (a b c : PyVal) :
  scalar a -> scalar b -> scalar c ->
  py_eqb a b = true -> py_eqb b c = true -> py_eqb a c = true.
Proof.
  destruct a, b, c; simpl; intros Ha Hb Hc H1 H2;
    try contradiction; try discriminate; try reflexivity;
    try (eapply Deqb_trans; eassumption).
  apply String.eqb_eq in H1, H2. subst. apply String.eqb_refl.
Qed.

Lemma scalar_of_decimal (x : option Decimal) : scalar (of_decimal x).
Proof. destruct x; exact I. Qed.

Lemma scalar_of_integer (x : option Z) : scalar (of_integer x).
Proof. destruct x; exact I. Qed.

Lemma decimal_eqb_sym (x y : option Decimal) :
  py_eqb (of_decimal x) (of_decimal y) = true -> py_eqb (of_decimal y) (of_decimal x) = true.
Proof.
  intros H. rewrite py_eqb_scalar_sym; [exact H | apply scalar_of_decimal ..].
Qed.

Lemma integer_eqb_sym (x y : option Z) :
  py_eqb (of_integer x) (of_integer y) = true -> py_eqb (of_integer y) (of_integer x) = true.
Proof.
  intros H. rewrite py_eqb_scalar_sym; [exact H | apply scalar_of_integer ..].
Qed.

Lemma string_eqb_sym (x y : string) :
  py_eqb (PStr x) (PStr y) = true -> py_eqb (PStr y) (PStr x) = true.
Proof. intros H. rewrite py_eqb_scalar_sym; [exact H | exact I ..]. Qed.

Lemma decimal_eqb_trans (x y z : option Decimal) :
  py_eqb (of_decimal x) (of_decimal y) = true ->
  py_eqb (of_decimal y) (of_decimal z) = true ->
  py_eqb (of_decimal x) (of_decimal z) = true.
Proof. apply py_eqb_scalar_trans; apply scalar_of_decimal. Qed.

Lemma integer_eqb_trans (x y z : option Z) :
  py_eqb (of_integer x) (of_integer y) = true ->
  py_eqb (of_integer y) (of_integer z) = true ->
  py_eqb (of_integer x) (of_integer z) = true.
Proof. apply py_eqb_scalar_trans; apply scalar_of_integer. Qed.

Lemma string_eqb_trans (x y z : string) :
  py_eqb (PStr x) (PStr y) = true -> py_eqb (PStr y) (PStr z) = true ->
  py_eqb (PStr x) (PStr z) = true.
Proof. apply py_eqb_scalar_trans; exact I. Qed.

Lemma same_values_refl (a : Ingredient) : same_values a a.
Proof.
  unfold same_values.
  repeat split;
    first [apply py_eqb_decimal_refl | apply py_eqb_integer_refl | apply py_eqb_string_refl].
Qed.

Lemma same_values_sym (a b : Ingredient) : same_values a b -> same_values b a.
Proof.
  unfold same_values. intros (H1 & H2 & H3 & H4 & H5 & H6 & H7 & H8 & H9).
  repeat split;
    first [apply decimal_eqb_sym | apply integer_eqb_sym | apply string_eqb_sym];
    assumption.
Qed.

Lemma same_values_trans (a b c : Ingredient) :
  same_values a b -> same_values b c -> same_values a c.
Proof.
  unfold same_values.
  intros (H1 & H2 & H3 & H4 & H5 & H6 & H7 & H8 & H9)
         (G1 & G2 & G3 & G4 & G5 & G6 & G7 & G8 & G9).
  repeat split;
    first [eapply decimal_eqb_trans | eapply integer_eqb_trans | eapply string_eqb_trans];
    eassumption.
Qed.

(** X5: between ingredients [__eq__] is an equivalence: every ingredient
    equals itself, [a == b] and [b == a] give the same answer, and equality
    carries over from [a == b] and [b == c] to [a == c]. *)
Theorem eq_equivalence :
  (forall a, __eq__ a (IngredientObject a) = true) /\
  (forall a b, __eq__ a (IngredientObject b) = __eq__ b (IngredientObject a)) /\
  (forall a b c,
     __eq__ a (IngredientObject b) = true -> __eq__ b (IngredientObject c) = true ->
     __eq__ a (IngredientObject c) = true).
Proof.
  split; [| split].
  - intros a. apply eq_same_values, same_values_refl.
  - intros a b. apply eq_true_iff_eq. rewrite !eq_same_values.
    split; apply same_values_sym.
  - intros a b c. rewrite !eq_same_values. apply same_values_trans.
Qed.

Lemma eq_equivalence_witness : __eq__ twin_1 (IngredientObject twin_1) = true.
Proof.
  apply (proj2 (proj2 eq_equivalence) twin_1 twin_2 twin_1); vm_compute; reflexivity.
Defined.

(** ** save evicts one key only *)

Section MoreSaveFacts.

Context {Database CacheValue : Type}.
Variable Model_save :
  Ingredient -> World Database CacheValue ->
  Result Exception (Ingredient * World Database CacheValue).
Variable get_ingredient_key : option Z -> string.

(** X6: besides what the save of the parent class does, a successful [save]
    changes nothing but the cache entry of the record: the store and the
    mail are those the parent left, and every other cache key reads as it
    did. *)
Theorem save_evicts_only (self self' : Ingredient) (w w' : World Database CacheValue) :
  save Model_save get_ingredient_key self w = Ok (self', w') ->
  exists w1,
    Model_save self w = Ok (self', w1) /\
    database w' = database w1 /\ admin_mails w' = admin_mails w1 /\
    forall key, key <> get_ingredient_key (pk self') ->
                cache_get key w' = cache_get key w1.
Proof.
  unfold save. intros H.
  destruct (Model_save self w) as [[s1 w1] | e]; simpl in H; [| discriminate H].
  injection H as <- <-. exists w1. repeat split.
  intros key Hne. apply cache_get_delete_ne. congruence.
Qed.

End MoreSaveFacts.

Lemma save_evicts_only_witness :
  exists w1,
    sample_Model_save ingredient_80 sample_world = Ok (sample_saved, w1) /\
    database sample_world_saved = database w1 /\
    admin_mails sample_world_saved = admin_mails w1 /\
    forall key, key <> sample_key (pk sample_saved) ->
                cache_get key sample_world_saved = cache_get key w1.
Proof.
  apply (save_evicts_only sample_Model_save sample_key ingredient_80 sample_saved
           sample_world sample_world_saved).
  vm_compute. reflexivity.
Defined.

(** ** set_author: what it keeps *)

Lemma split_colon_0_no_colon (s : string) : no_colon (split_colon_0 s).
Proof.
  induction s as [| c rest IH]; simpl.
  - exact I.
  - destruct (Ascii.eqb_spec c ":"%char) as [-> | Hne]; simpl; [exact I | split; assumption].
Qed.

Lemma split_colon_0_prefix (s : string) :
  exists rest, s = split_colon_0 s ++ rest /\
               (rest = "" \/ exists port, rest = ":" ++ port).
Proof.
  induction s as [| c tail IH]; simpl.
  - exists "". split; [reflexivity | left; reflexivity].
  - destruct (Ascii.eqb_spec c ":"%char) as [-> | Hne].
    + exists (String ":"%char tail). split; [reflexivity | right; exists tail; reflexivity].
    + destruct IH as (rest & Heq & Hrest). exists rest. split; [| exact Hrest].
      change (String c tail = String c (split_colon_0 tail ++ rest)).
      f_equal. exact Heq.
Qed.

Lemma set_license_author_same (self : Ingredient) :
  set_license_author self (license_author self) = self.
Proof. destruct self. reflexivity. Qed.

Lemma author_or_again (self self' : Ingredient) (fallback : string) :
  license_author self' = author_or self fallback ->
  author_or self' fallback = author_or self fallback.
Proof.
  unfold author_or. intros H.
  destruct (truthy_str (license_author self)) eqn:Ha.
  - rewrite H, Ha. reflexivity.
  - rewrite H. destruct (truthy_str (Some fallback)); reflexivity.
Qed.

Lemma set_author_fixpoint (self : Ingredient) (fallback : string) :
  let self1 := set_license_author self (author_or self fallback) in
  set_license_author self1 (author_or self1 fallback) = self1.
Proof.
  intros self1.
  rewrite (author_or_again self self1 fallback) by reflexivity.
  reflexivity.
Qed.

Section MoreAuthorFacts.

Context {Database CacheValue : Type}.
Variable delivers : AdminMail -> bool.

(** [set_author] in one equation. *)
Lemma set_author_eq (self : Ingredient) (request : HttpRequest)
    (w : World Database CacheValue) :
  set_author delivers self request w =
  if has_perm (user request) "nutrition.add_ingredient" then
    Ok (set_license_author (set_status self STATUS_ACCEPTED)
          (author_or self (split_colon_0 (get_host request))), w)
  else
    Ok (set_license_author self (author_or self (username (user request))),
        mkWorld (database w) (cache w)
          (admin_mails w ++
           [mkAdminMail "New user submitted ingredient"
              (submission_message (username (user request)) (name self)) true])%list).
Proof.
  unfold set_author, author_or.
  destruct (has_perm (user request) "nutrition.add_ingredient").
  - change (license_author (set_status self STATUS_ACCEPTED)) with (license_author self).
    destruct (truthy_str (license_author self)); simpl; [| reflexivity].
    rewrite <- (set_license_author_same (set_status self STATUS_ACCEPTED)) at 1.
    reflexivity.
  - rewrite mail_admins_silently.
    destruct (truthy_str (license_author self)); simpl; [| reflexivity].
    rewrite set_license_author_same. reflexivity.
Qed.

(** X7: [set_author] always returns, and touches nothing of the record but
    the status and the author: key, uuid, name, code, energy and all
    amounts are kept, as are the store and the cache. *)
Theorem set_author_keeps_values (self : Ingredient) (request : HttpRequest)
    (w : World Database CacheValue) :
  exists self' w',
    set_author delivers self request w = Ok (self', w') /\
    pk self' = pk self /\ uuid self' = uuid self /\ name self' = name self /\
    code self' = code self /\ energy self' = energy self /\
    protein self' = protein self /\ carbohydrates self' = carbohydrates self /\
    carbohydrates_sugar self' = carbohydrates_sugar self /\ fat self' = fat self /\
    fat_saturated self' = fat_saturated self /\ fibres self' = fibres self /\
    sodium self' = sodium self /\
    database w' = database w /\ cache w' = cache w.
Proof.
  rewrite set_author_eq.
  destruct (has_perm (user request) "nutrition.add_ingredient");
    do 2 eexists; repeat split.
Qed.

(** X8: for a user who may add ingredients and a record without author, the
    author becomes a colon-free prefix of the host, and what follows it in
    the host is nothing or a colon and the rest (the port). *)
Theorem set_author_host_author (self : Ingredient) (request : HttpRequest)
    (w : World Database CacheValue) :
  has_perm (user request) "nutrition.add_ingredient" = true ->
  truthy_str (license_author self) = false ->
  exists self' host rest,
    set_author delivers self request w = Ok (self', w) /\
    license_author self' = Some host /\
    no_colon host /\
    get_host request = host ++ rest /\
    (rest = "" \/ exists port, rest = ":" ++ port).
Proof.
  intros Hperm Hauthor. rewrite set_author_eq, Hperm. unfold author_or. rewrite Hauthor.
  destruct (split_colon_0_prefix (get_host request)) as (rest & Heq & Hrest).
  eexists _, (split_colon_0 (get_host request)), rest.
  split; [reflexivity |]. split; [reflexivity |].
  split; [apply split_colon_0_no_colon |]. split; assumption.
Qed.

(** X9: calling [set_author] a second time with the same request leaves the
    record as the first call made it; a user without the permission causes
    a second mail to the administrators, a user with it none. *)
Theorem set_author_again (self self1 : Ingredient) (request : HttpRequest)
    (w w1 : World Database CacheValue) :
  set_author delivers self request w = Ok (self1, w1) ->
  exists w2,
    set_author delivers self1 request w1 = Ok (self1, w2) /\
    length (admin_mails w2) =
      (length (admin_mails w1)
       + if has_perm (user request) "nutrition.add_ingredient" then 0 else 1)%nat.
Proof.
  rewrite !set_author_eq.
  destruct (has_perm (user request) "nutrition.add_ingredient");
    intros H; injection H as <- <-; eexists; split.
  - pose proof (set_author_fixpoint (set_status self STATUS_ACCEPTED)
                  (split_colon_0 (get_host request))) as Hfix.
    cbv zeta in Hfix.
    change (author_or (set_status self STATUS_ACCEPTED)) with (author_or self) in Hfix.
    change (set_status
              (set_license_author (set_status self STATUS_ACCEPTED)
                 (author_or self (split_colon_0 (get_host request)))) STATUS_ACCEPTED)
      with (set_license_author (set_status self STATUS_ACCEPTED)
              (author_or self (split_colon_0 (get_host request)))).
    rewrite Hfix. reflexivity.
  - simpl. lia.
  - rewrite set_author_fixpoint. reflexivity.
  - simpl. rewrite length_app. simpl. lia.
Qed.

End MoreAuthorFacts.

Lemma set_author_keeps_values_witness :
  exists self' w',
    set_author never_delivers ingredient_of_alice request_bob sample_world = Ok (self', w') /\
    pk self' = pk ingredient_of_alice /\ uuid self' = uuid ingredient_of_alice /\
    name self' = name ingredient_of_alice /\
    code self' = code ingredient_of_alice /\ energy self' = energy ingredient_of_alice /\
    protein self' = protein ingredient_of_alice /\
    carbohydrates self' = carbohydrates ingredient_of_alice /\
    carbohydrates_sugar self' = carbohydrates_sugar ingredient_of_alice /\
    fat self' = fat ingredient_of_alice /\
    fat_saturated self' = fat_saturated ingredient_of_alice /\
    fibres self' = fibres ingredient_of_alice /\
    sodium self' = sodium ingredient_of_alice /\
    database w' = database sample_world /\ cache w' = cache sample_world.
Proof.
  exact (set_author_keeps_values never_delivers ingredient_of_alice request_bob sample_world).
Defined.

Lemma set_author_host_author_witness :
  exists self' host rest,
    set_author never_delivers ingredient_80 request_admin sample_world = Ok (self', sample_world) /\
    license_author self' = Some host /\
    no_colon host /\
    get_host request_admin = host ++ rest /\
    (rest = "" \/ exists port, rest = ":" ++ port).
Proof.
  apply (set_author_host_author never_delivers ingredient_80 request_admin sample_world);
    reflexivity.
Defined.

Lemma set_author_again_witness :
  exists w2,
    set_author never_delivers ingredient_of_alice request_bob sample_world_mailed
    = Ok (ingredient_of_alice, w2) /\
    length (admin_mails w2) =
      (length (admin_mails sample_world_mailed)
       + if has_perm (user request_bob) "nutrition.add_ingredient" then 0 else 1)%nat.
Proof.
  apply (set_author_again never_delivers ingredient_of_alice ingredient_of_alice request_bob
           sample_world sample_world_mailed).
  vm_compute. reflexivity.
Defined.

(** ** fetch_ingredient_from_off: side effects and exceptions *)

Section MoreFetchFacts.

Context {Database CacheValue Language : Type}.
Variable Model_save :
  Ingredient -> World Database CacheValue ->
  Result Exception (Ingredient * World Database CacheValue).
Variable get_ingredient_key : option Z -> string.
Variable get_product : string -> Result Exception PyVal.
Variable OFF_SEARCH_PRODUCT_FOUND : PyVal.
Variable load_language :
  PyVal -> World Database CacheValue ->
  Result Exception Language * World Database CacheValue.
Variable extract_info_from_off : PyVal -> Language -> Result Exception PyVal.
Variable Ingredient_init : PyVal -> Result Exception Ingredient.

Local Abbreviation fetch :=
  (fetch_ingredient_from_off Model_save get_ingredient_key get_product
     OFF_SEARCH_PRODUCT_FOUND load_language extract_info_from_off Ingredient_init).
Local Abbreviation extract := (extraction load_language extract_info_from_off).

(** X10: whenever the lookup returns [None], for whatever reason, nothing
    was saved: store, cache and mail are as before the call, or, when the
    product was found and names its language, as the language lookup left
    them. *)
Theorem fetch_nothing_saved (barcode : string) (w w' : World Database CacheValue) :
  fetch barcode w = Ok (None, w') ->
  w' = w \/
  exists result product lang,
    get_product barcode = Ok result /\
    py_getitem result "product" = Ok product /\
    py_getitem product "lang" = Ok lang /\
    w' = snd (load_language lang w).
Proof.
  unfold fetch_ingredient_from_off. intros H.
  destruct (get_product barcode) as [result | e]; simpl in H; [| discriminate].
  destruct (py_getitem result "status") as [found | e]; simpl in H; [| discriminate].
  destruct (py_ne found OFF_SEARCH_PRODUCT_FOUND); [injection H as <-; left; reflexivity |].
  destruct (py_getitem result "product") as [product | e] eqn:Hp; simpl in H;
    [| discriminate].
  assert (w' = snd (extract product w)) as Hw.
  { destruct (extract product w) as [[data | e] w1]; simpl;
      [| destruct e; first [discriminate | injection H as <-; reflexivity]].
    destruct (py_getitem data "name") as [nm | e]; simpl in H; [| discriminate].
    destruct (py_truthy nm); simpl in H; [| injection H as <-; reflexivity].
    destruct (py_getitem data "common_name") as [cn | e]; simpl in H; [| discriminate].
    destruct (py_truthy cn); simpl in H; [| injection H as <-; reflexivity].
    destruct (Ingredient_init data) as [ing0 | e]; simpl in H; [| discriminate].
    destruct (save Model_save get_ingredient_key ing0 w1) as [[i1 w2] | e];
      simpl in H; discriminate. }
  destruct (extraction_world load_language extract_info_from_off product w)
    as [Hsame | (lang & Hl & Hlang)].
  - left. congruence.
  - right. exists result, product, lang. repeat split; congruence.
Qed.

(** X11: when the lookup returns an ingredient, the cache holds no entry
    under the key of that ingredient's id. *)
Theorem fetch_created_not_cached (barcode : string) (w w' : World Database CacheValue)
    (ing : Ingredient) :
  fetch barcode w = Ok (Some ing, w') ->
  cache_get (get_ingredient_key (pk ing)) w' = None.
Proof.
  intros H. apply fetch_created_inv in H.
  destruct H as (result & found & product & data & w1 & nm & cn & ing0 & _ & _ & _ & _ &
                 _ & _ & _ & _ & _ & _ & Hsave).
  unfold save in Hsave.
  destruct (Model_save ing0 w1) as [[s1 w2] | e]; simpl in Hsave; [| discriminate].
  injection Hsave as <- <-. apply cache_get_delete.
Qed.

(** X12: only [KeyError] is absorbed: any other exception raised inside the
    [try] block (a product that is no dictionary, a failing language
    lookup) reaches the caller unchanged. *)
Theorem fetch_other_exception (barcode : string) (w : World Database CacheValue)
    (result found product : PyVal) (e : Exception) :
  get_product barcode = Ok result ->
  py_getitem result "status" = Ok found ->
  py_ne found OFF_SEARCH_PRODUCT_FOUND = false ->
  py_getitem result "product" = Ok product ->
  fst (extract product w) = Raise e -> e <> KeyError ->
  fetch barcode w = Raise e.
Proof.
  intros Hr Hs Hne Hp He Hk.
  rewrite (fetch_found _ _ _ _ _ _ _ barcode w result found product Hr Hs Hne Hp).
  destruct (extract product w) as [extracted w1]. simpl in He. rewrite He.
  destruct e; first [congruence | reflexivity].
Qed.

End MoreFetchFacts.

Lemma fetch_nothing_saved_witness :
  fetch_ingredient_from_off sample_Model_save sample_key sample_get_product_unnamed (PInt 1)
    sample_load_language_caching sample_extract sample_init "4001" sample_world
  = Ok (None, sample_world_language) /\
  sample_world_language <> sample_world /\
  (sample_world_language = sample_world \/
   exists result product lang,
     sample_get_product_unnamed "4001" = Ok result /\
     py_getitem result "product" = Ok product /\
     py_getitem product "lang" = Ok lang /\
     sample_world_language = snd (sample_load_language_caching lang sample_world)).
Proof.
  assert (fetch_ingredient_from_off sample_Model_save sample_key sample_get_product_unnamed
            (PInt 1) sample_load_language_caching sample_extract sample_init "4001"
            sample_world
          = Ok (None, sample_world_language)) as Hfetch by (vm_compute; reflexivity).
  split; [exact Hfetch | split].
  - intros Heq. apply (f_equal (cache_get "language-en")) in Heq.
    vm_compute in Heq. discriminate Heq.
  - exact (fetch_nothing_saved sample_Model_save sample_key sample_get_product_unnamed
             (PInt 1) sample_load_language_caching sample_extract sample_init "4001"
             sample_world sample_world_language Hfetch).
Defined.

Lemma fetch_created_not_cached_witness :
  cache_get (sample_key (pk sample_oats)) sample_world_oats = None.
Proof.
  apply (fetch_created_not_cached sample_Model_save sample_key sample_get_product (PInt 1)
           sample_load_language sample_extract sample_init "4001" sample_world
           sample_world_oats sample_oats).
  vm_compute. reflexivity.
Defined.

Lemma fetch_other_exception_witness :
  fetch_ingredient_from_off sample_Model_save sample_key sample_get_product_list (PInt 1)
    sample_load_language sample_extract sample_init "4001" sample_world
  = Raise TypeError.
Proof.
  apply (fetch_other_exception sample_Model_save sample_key sample_get_product_list (PInt 1)
           sample_load_language sample_extract sample_init "4001" sample_world
           (PDict [("status", PInt 1); ("product", PList [])]) (PInt 1) (PList []) TypeError);
    first [reflexivity | discriminate].
Defined.

(** ** energy_kilojoule: accuracy, symmetry, order, overflow *)

(** The value of the property on the integer field. *)
Lemma energy_kilojoule_coef (self : Ingredient) (e : Z) :
  energy self = Some e -> - 2 ^ 31 <= e <= 2 ^ 31 - 1 -> e <> 0 ->
  energy_kilojoule self
  = Ok (mkDecimal (Z.sgn e * div_half_even (Z.abs e * 4184) 10) (-2)).
Proof.
  intros He Hr Hne. destruct (energy_kilojoule_in_range self e He Hr Hne) as [H1 H2].
  rewrite H1. exact H2.
Qed.

(** X13: on the integer field the property is within 0.004 of the exact
    product: for a result of [c] hundredths, [4184 e - 10 c] lies between
    -4 and 4; it has exactly two decimal places. *)
Theorem energy_kilojoule_accuracy (self : Ingredient) (e : Z) (d : Decimal) :
  energy self = Some e -> - 2 ^ 31 <= e <= 2 ^ 31 - 1 -> e <> 0 ->
  energy_kilojoule self = Ok d ->
  expo d = -2 /\ -4 <= 4184 * e - 10 * coef d <= 4.
Proof.
  intros He Hr Hne Hd. rewrite (energy_kilojoule_coef self e He Hr Hne) in Hd.
  injection Hd as <-. simpl. split; [reflexivity |].
  pose proof (tenth_distance (Z.abs e) ltac:(lia)) as HR.
  set (R := div_half_even (Z.abs e * 4184) 10) in *. clearbody R.
  destruct (Z.sgn_spec e) as [[H0 H1] | [[H0 H1] | [H0 H1]]]; rewrite H1; lia.
Qed.

Lemma energy_kilojoule_accuracy_witness :
  expo (mkDecimal 41840 (-2)) = -2 /\ -4 <= 4184 * 100 - 10 * coef (mkDecimal 41840 (-2)) <= 4.
Proof.
  apply (energy_kilojoule_accuracy ingredient_100 100 (mkDecimal 41840 (-2)));
    first [reflexivity | discriminate | vm_compute; split; discriminate].
Defined.

(** X14: on the integer field the property is odd: energies [e] and [- e]
    give opposite values. *)
Theorem energy_kilojoule_odd (a b : Ingredient) (e : Z) :
  energy a = Some e -> energy b = Some (- e) ->
  - 2 ^ 31 < e < 2 ^ 31 -> e <> 0 ->
  exists c, energy_kilojoule a = Ok (mkDecimal c (-2)) /\
            energy_kilojoule b = Ok (mkDecimal (- c) (-2)).
Proof.
  intros Ha Hb Hr Hne.
  change (2 ^ 31) with 2147483648 in Hr.
  rewrite (energy_kilojoule_coef a e Ha) by (change (2 ^ 31) with 2147483648; lia).
  rewrite (energy_kilojoule_coef b (- e) Hb) by (change (2 ^ 31) with 2147483648; lia).
  eexists. split; [reflexivity |].
  rewrite Z.abs_opp, Z.sgn_opp. do 2 f_equal. lia.
Qed.

Lemma energy_kilojoule_odd_witness :
  exists c, energy_kilojoule ingredient_100 = Ok (mkDecimal c (-2)) /\
            energy_kilojoule ingredient_negative = Ok (mkDecimal (- c) (-2)).
Proof.
  apply (energy_kilojoule_odd ingredient_100 ingredient_negative 100);
    first [reflexivity | discriminate | vm_compute; split; reflexivity].
Defined.

(** Rounding keeps the order. *)
Lemma div_half_even_le (n m d : Z) :
  0 <= n <= m -> 0 < d -> div_half_even n d <= div_half_even m d.
Proof.
  intros Hn Hd.
  destruct (Z.eq_dec n m) as [-> | Hne]; [lia |].
  pose proof (div_half_even_bounds n d ltac:(lia) Hd) as [_ Hbn].
  pose proof (div_half_even_bounds m d ltac:(lia) Hd) as [_ Hbm].
  nia.
Qed.

Lemma hundredths_le (e1 e2 : Z) : e1 <= e2 -> hundredths e1 <= hundredths e2.
Proof.
  intros Hle. unfold hundredths.
  pose proof (div_half_even_bounds (Z.abs e1 * 4184) 10 ltac:(lia) ltac:(lia)) as [H1 _].
  pose proof (div_half_even_bounds (Z.abs e2 * 4184) 10 ltac:(lia) ltac:(lia)) as [H2 _].
  destruct (Z.eqb_spec e1 0) as [-> | Hn1], (Z.eqb_spec e2 0) as [-> | Hn2]; try lia.
  destruct (Z.sgn_spec e1) as [[H0 Hs] | [[H0 Hs] | [H0 Hs]]]; rewrite Hs;
    destruct (Z.sgn_spec e2) as [[G0 Gs] | [[G0 Gs] | [G0 Gs]]]; rewrite Gs; try lia.
  - assert (div_half_even (Z.abs e1 * 4184) 10 <= div_half_even (Z.abs e2 * 4184) 10)
      by (apply div_half_even_le; lia). lia.
  - assert (div_half_even (Z.abs e2 * 4184) 10 <= div_half_even (Z.abs e1 * 4184) 10)
      by (apply div_half_even_le; lia). lia.
Qed.

Lemma energy_kilojoule_hundredths (self : Ingredient) (e : Z) :
  energy self = Some e -> - 2 ^ 31 <= e <= 2 ^ 31 - 1 ->
  exists d, energy_kilojoule self = Ok d /\ rescale d (-2) = hundredths e /\ -2 <= expo d.
Proof.
  intros He Hr. unfold hundredths.
  destruct (Z.eqb_spec e 0) as [-> | Hne].
  - exists (of_int 0). unfold energy_kilojoule. rewrite He. repeat split. simpl. lia.
  - eexists. split; [apply (energy_kilojoule_coef self e He Hr Hne) |].
    unfold rescale. simpl. split; lia.
Qed.

Lemma Dltb_hundredths (d1 d2 : Decimal) :
  -2 <= expo d1 -> -2 <= expo d2 ->
  Dltb d2 d1 = (rescale d2 (-2) <? rescale d1 (-2)).
Proof.
  intros H1 H2. apply eq_true_iff_eq.
  rewrite Dltb_spec, Z.ltb_lt, Zlt_Qlt.
  rewrite <- (rescale_value d1 (-2) H1), <- (rescale_value d2 (-2) H2).
  apply Qmult_lt_r. apply ten_pow_pos.
Qed.

(** X15: on the integer field the property keeps the order of the
    energies, zero included: of two ingredients the one with the smaller
    energy never has the greater value. *)
Theorem energy_kilojoule_monotone (a b : Ingredient) (e1 e2 : Z) :
  energy a = Some e1 -> energy b = Some e2 ->
  - 2 ^ 31 <= e1 -> e1 <= e2 -> e2 <= 2 ^ 31 - 1 ->
  exists d1 d2,
    energy_kilojoule a = Ok d1 /\ energy_kilojoule b = Ok d2 /\ Dgtb d1 d2 = false.
Proof.
  intros Ha Hb Hlo Hle Hhi.
  destruct (energy_kilojoule_hundredths a e1 Ha ltac:(lia)) as (d1 & H1 & Hc1 & Hx1).
  destruct (energy_kilojoule_hundredths b e2 Hb ltac:(lia)) as (d2 & H2 & Hc2 & Hx2).
  exists d1, d2. split; [exact H1 |]. split; [exact H2 |].
  unfold Dgtb. rewrite (Dltb_hundredths d1 d2 Hx1 Hx2), Hc1, Hc2.
  apply Z.ltb_ge. apply hundredths_le. exact Hle.
Qed.

Lemma energy_kilojoule_monotone_witness :
  exists d1 d2,
    energy_kilojoule water = Ok d1 /\ energy_kilojoule ingredient_100 = Ok d2 /\
    Dgtb d1 d2 = false.
Proof.
  apply (energy_kilojoule_monotone water ingredient_100 0 100);
    first [reflexivity | vm_compute; discriminate].
Defined.

Lemma bits_log2 (n : Z) : 0 < n -> 2 ^ (bits n - 1) <= n.
Proof.
  intros Hn. unfold bits. destruct (Z.eqb_spec n 0); [lia |].
  replace (Z.log2 n + 1 - 1) with (Z.log2 n) by lia.
  apply Z.log2_spec. exact Hn.
Qed.

(** X16: an energy of absolute value [2^1024] or more is too large for a
    float: the property raises [OverflowError]. *)
Theorem energy_kilojoule_overflow (self : Ingredient) (e : Z) :
  energy self = Some e -> 2 ^ 1024 <= Z.abs e ->
  energy_kilojoule self = Raise OverflowError.
Proof.
  intros He Hbig.
  assert (0 < 2 ^ 1024) as Hpos by (apply Z.pow_pos_nonneg; lia).
  unfold energy_kilojoule. rewrite He. unfold truthy_int.
  destruct (Z.eqb_spec e 0) as [-> | Hne]; [simpl in Hbig; lia |]. cbn [negb].
  unfold float_of_int, round_binary64, overflows. cbn [mant fexp].
  set (n := Z.abs e) in *.
  pose proof (bits_ge n 1024 Hbig ltac:(lia)) as Hb.
  pose proof (bits_log2 n ltac:(lia)) as Hlog.
  replace (Z.max 0 (Z.max (bits n - 53) (-1074 - 0))) with (bits n - 53) by lia.
  set (s := bits n - 53) in *.
  assert (0 < 2 ^ s) as HA by (apply Z.pow_pos_nonneg; lia).
  assert (2 ^ (bits n - 1) = 2 ^ 52 * 2 ^ s) as Hsplit
    by (rewrite <- Z.pow_add_r by lia; f_equal; lia).
  pose proof (div_half_even_bounds n (2 ^ s) ltac:(lia) HA) as [Hq0 Hq].
  set (q := div_half_even n (2 ^ s)) in *.
  change (2 ^ 52) with 4503599627370496 in Hsplit.
  assert (4503599627370496 <= q) as Hq52 by nia.
  assert (Z.abs (Z.sgn e * q) = q) as -> by (unfold n in *; nia).
  pose proof (bits_ge q 52 ltac:(change (2 ^ 52) with 4503599627370496; lia) ltac:(lia)) as Hbq.
  destruct (Z.ltb_spec 1024 (bits q + (0 + s))) as [_ | Hbad]; [reflexivity | lia].
Qed.

Lemma energy_kilojoule_overflow_witness :
  energy_kilojoule (with_energy (Some (2 ^ 1024))) = Raise OverflowError.
Proof.
  apply (energy_kilojoule_overflow (with_energy (Some (2 ^ 1024))) (2 ^ 1024));
    first [reflexivity | vm_compute; discriminate].
Defined.

(** ** dashboard: the table of the weekdays *)

Lemma add_day_lookup (used : gmap Z string) (d : Day) (k : Z) :
  add_day used d !! k = if decide (k ∈ day_ids d) then Some (description d) else used !! k.
Proof.
  unfold add_day, day_ids. generalize used. clear used.
  induction (day d) as [| x l IH]; intros used; cbn [fold_left map].
  - destruct (decide (k ∈ [])) as [H |]; [| reflexivity]. apply elem_of_nil in H. contradiction.
  - rewrite IH. repeat case_decide; try reflexivity.
    + exfalso. set_solver.
    + rewrite lookup_insert. case_decide; [reflexivity |]. exfalso. set_solver.
    + rewrite lookup_insert_ne; [reflexivity |]. set_solver.
Qed.

(** A later training day overwrites the earlier ones. *)
Lemma fold_add_day_app (ds : list Day) (d : Day) (used : gmap Z string) (k : Z) :
  fold_left add_day (ds ++ [d]) used !! k
  = if decide (k ∈ day_ids d) then Some (description d)
    else fold_left add_day ds used !! k.
Proof. rewrite fold_left_app. simpl. apply add_day_lookup. Qed.

Lemma fold_add_day_unused (ds : list Day) (used : gmap Z string) (k : Z) :
  (forall d, d ∈ ds -> k ∉ day_ids d) ->
  fold_left add_day ds used !! k = used !! k.
Proof.
  generalize used. clear used.
  induction ds as [| d ds IH]; intros used Hno; simpl.
  - reflexivity.
  - rewrite IH by (intros d' Hd'; apply Hno; set_solver).
    rewrite add_day_lookup. case_decide as H; [| reflexivity].
    exfalso. apply (Hno d); [set_solver | exact H].
Qed.

Lemma fold_add_day_is_Some (ds : list Day) (k : Z) :
  is_Some (fold_left add_day ds ∅ !! k) <-> exists d, d ∈ ds /\ k ∈ day_ids d.
Proof.
  induction ds as [| d ds IH] using rev_ind.
  - simpl. rewrite lookup_empty. split.
    + intros [x Hx]. discriminate.
    + intros (d & Hd & _). apply elem_of_nil in Hd. contradiction.
  - rewrite fold_add_day_app. case_decide as Hk.
    + split; [| eauto]. intros _. exists d. split; [set_solver | exact Hk].
    + rewrite IH. split.
      * intros (d' & Hd' & Hk'). exists d'. split; [set_solver | exact Hk'].
      * intros (d' & Hd' & Hk'). apply elem_of_app in Hd'. destruct Hd' as [Hd' | Hd'].
        -- eauto.
        -- apply list_elem_of_singleton in Hd'. subst. contradiction.
Qed.

(** A weekday is in [used_days] exactly when the workout trains on it. *)
Lemma used_days_is_Some (current_workout : option Workout) (k : Z) :
  is_Some (used_days current_workout !! k) <-> trains_on current_workout k.
Proof.
  unfold used_days, trains_on. destruct current_workout as [workout |].
  - rewrite fold_add_day_is_Some. split.
    + intros (d & Hd & Hk). eauto.
    + intros (workout' & d & Heq & Hd & Hk). injection Heq as <-. eauto.
  - rewrite lookup_empty. split.
    + intros [x Hx]. discriminate.
    + intros (workout & d & Heq & _). discriminate.
Qed.

Section WeekdayFacts.

Variable gettext : string -> string.

(** Each turn of the loop appends one entry, whatever the flag. *)
Lemma week_day_step_entry (used : gmap Z string) (acc : list (string * string * bool))
    (week : DaysOfWeek) :
  week_day_step gettext used acc week = (acc ++ [week_entry gettext used week])%list.
Proof.
  unfold week_day_step, week_entry. destruct (used !! dow_id week); reflexivity.
Qed.

Lemma week_day_result_map (used : gmap Z string) (all : list DaysOfWeek) :
  week_day_result gettext used all = map (week_entry gettext used) all.
Proof.
  unfold week_day_result.
  assert (forall acc, fold_left (week_day_step gettext used) all acc
                      = (acc ++ map (week_entry gettext used) all)%list) as H.
  { induction all as [| week all IH]; intros acc; simpl.
    - rewrite app_nil_r. reflexivity.
    - rewrite IH, week_day_step_entry, <- app_assoc. reflexivity. }
  apply (H []).
Qed.

(** X17: the table of [dashboard] has exactly one entry for each row of
    [DaysOfWeek], in the order of the rows, and each entry starts with the
    translated name of its weekday. *)
Theorem weekdays_one_per_day (current_workout : option Workout) (all : list DaysOfWeek) :
  length (weekdays gettext current_workout all) = length all /\
  map (fun entry => fst (fst entry)) (weekdays gettext current_workout all)
  = map (fun week => gettext (day_of_week week)) all.
Proof.
  unfold weekdays. rewrite week_day_result_map. split.
  - apply length_map.
  - rewrite map_map. apply map_ext. intros week. unfold week_entry.
    destruct (used_days current_workout !! dow_id week); reflexivity.
Qed.

(** X18: the entry of a weekday is flagged exactly when some day of the
    current workout lists that weekday; an entry without flag reads "Rest
    day" (translated).  Without a current workout no entry is flagged. *)
Theorem weekdays_flag (current_workout : option Workout) (all : list DaysOfWeek)
    (i : nat) (week : DaysOfWeek) :
  all !! i = Some week ->
  exists text flag,
    weekdays gettext current_workout all !! i
    = Some (gettext (day_of_week week), text, flag) /\
    (flag = true <-> trains_on current_workout (dow_id week)) /\
    (flag = false -> text = gettext "Rest day").
Proof.
  intros Hi. unfold weekdays. rewrite week_day_result_map, list_lookup_fmap, Hi. simpl.
  unfold week_entry.
  pose proof (used_days_is_Some current_workout (dow_id week)) as Hused.
  destruct (used_days current_workout !! dow_id week) as [d |].
  - exists d, true. split; [reflexivity |]. split; [| discriminate].
    split; [intros _; apply Hused; eauto | reflexivity].
  - exists (gettext "Rest day"), false. split; [reflexivity |]. split; [| reflexivity].
    split; [discriminate |]. intros H. apply Hused in H. destruct H as [x Hx]. discriminate.
Qed.

(** X19: when several days of the workout list the same weekday, the entry
    shows the description of the last of them. *)
Theorem weekdays_last_day (before after : list Day) (d : Day) (all : list DaysOfWeek)
    (i : nat) (week : DaysOfWeek) :
  all !! i = Some week ->
  dow_id week ∈ day_ids d ->
  (forall d', d' ∈ after -> dow_id week ∉ day_ids d') ->
  weekdays gettext (Some (mkWorkout (before ++ d :: after))) all !! i
  = Some (gettext (day_of_week week), description d, true).
Proof.
  intros Hi Hd Hafter. unfold weekdays. rewrite week_day_result_map, list_lookup_fmap, Hi.
  simpl. unfold week_entry, used_days. simpl.
  rewrite fold_left_app. simpl.
  rewrite (fold_add_day_unused after _ _ Hafter), add_day_lookup.
  case_decide; [reflexivity | contradiction].
Qed.

End WeekdayFacts.

Lemma weekdays_one_per_day_witness :
  weekdays sample_gettext (Some sample_workout) sample_week
  = [("Monday", "Push", true); ("Tuesday", "Rest day", false); ("Thursday", "Legs", true)] /\
  length (weekdays sample_gettext (Some sample_workout) sample_week) = length sample_week.
Proof.
  split; [vm_compute; reflexivity |].
  exact (proj1 (weekdays_one_per_day sample_gettext (Some sample_workout) sample_week)).
Defined.

Lemma weekdays_flag_witness :
  exists text flag,
    weekdays sample_gettext (Some sample_workout) sample_week !! 1%nat
    = Some (sample_gettext (day_of_week tuesday), text, flag) /\
    (flag = true <-> trains_on (Some sample_workout) (dow_id tuesday)) /\
    (flag = false -> text = sample_gettext "Rest day").
Proof.
  apply (weekdays_flag sample_gettext (Some sample_workout) sample_week 1 tuesday).
  reflexivity.
Defined.

Lemma weekdays_last_day_witness :
  weekdays sample_gettext (Some (mkWorkout ([push_day] ++ leg_day :: []))) sample_week !! 2%nat
  = Some (sample_gettext (day_of_week thursday), description leg_day, true).
Proof.
  apply (weekdays_last_day sample_gettext [push_day] [] leg_day sample_week 2 thursday).
  - reflexivity.
  - unfold day_ids. simpl. apply list_elem_of_singleton. reflexivity.
  - intros d' Hd'. apply elem_of_nil in Hd'. contradiction.
Defined.

(** ** demo_entries *)

Section DemoFacts.

Variable gettext : string -> string.
Variable reverse : string -> Result Exception string.
Variable ALLOW_GUEST_USERS : bool.
Variable create_temporary_user : Visit -> SiteUser.
Variable login_session : gmap string PyVal -> SiteUser -> gmap string PyVal.

Local Abbreviation demo :=
  (demo_entries gettext reverse ALLOW_GUEST_USERS create_temporary_user login_session).
Local Abbreviation created :=
  (with_demo_data gettext create_temporary_user login_session).

(** The condition holds only for a guest whose session says that there are
    no demo data yet. *)
Lemma wants_demo_data_true (v : Visit) :
  wants_demo_data v = Ok true ->
  is_guest (visitor v) /\
  exists flag, session v !! "has_demo_data" = Some flag /\ py_truthy flag = false.
Proof.
  unfold wants_demo_data, is_guest, profile_is_temporary, session_getitem.
  destruct (is_authenticated (account (visitor v))); simpl.
  - destruct (userprofile (visitor v)) as [p |]; simpl; [| discriminate].
    destruct (is_temporary p) eqn:Ht; [| discriminate].
    destruct (session v !! "has_demo_data") as [flag |]; simpl; [| discriminate].
    intros H. injection H as H. apply negb_true_iff in H. eauto 10.
  - destruct (session v !! "has_demo_data") as [flag |]; simpl; [| discriminate].
    intros H. injection H as H. apply negb_true_iff in H. eauto 10.
Qed.

(** [demo_entries] with guest users allowed, in one equation. *)
Lemma demo_entries_eq (v : Visit) :
  ALLOW_GUEST_USERS = true ->
  demo v =
  match wants_demo_data v with
  | Ok wanted =>
      match reverse "core:dashboard" with
      | Ok url => Ok (HttpResponseRedirect url, if wanted then created v else v)
      | Raise e => Raise e
      end
  | Raise e => Raise e
  end.
Proof.
  intros Hallow. unfold demo_entries. rewrite Hallow. simpl.
  destruct (wants_demo_data v) as [wanted | e]; simpl; [| reflexivity].
  destruct (reverse "core:dashboard"); reflexivity.
Qed.

(** Once the demo data are there the condition is false. *)
Lemma wants_demo_data_after (v : Visit) :
  (forall v0, is_Some (userprofile (create_temporary_user v0))) ->
  wants_demo_data v = Ok true ->
  wants_demo_data (created v) = Ok false.
Proof.
  intros Hprofile Hw. apply wants_demo_data_true in Hw. destruct Hw as [Hguest _].
  unfold wants_demo_data, with_demo_data, session_getitem, profile_is_temporary.
  destruct (is_authenticated (account (visitor v))) eqn:Hauth; simpl.
  - rewrite Hauth. destruct Hguest as [Hanon | (p & Hp & Ht)]; [congruence |].
    rewrite Hp. simpl. rewrite Ht. rewrite lookup_insert_eq. reflexivity.
  - destruct (is_authenticated (account (create_temporary_user v))).
    + destruct (Hprofile v) as [p Hp]. rewrite Hp. simpl.
      destruct (is_temporary p); [| reflexivity].
      rewrite lookup_insert_eq. reflexivity.
    + simpl. rewrite lookup_insert_eq. reflexivity.
Qed.

(** X20: a call of [demo_entries] that returns either changes nothing, or
    guest users are allowed, the visitor was anonymous or temporary and the
    session said there were no demo data; then the demo entries are created
    once, for the user of the request (the temporary user just created and
    logged in, for an anonymous visitor), the session says so afterwards,
    and one message is added. *)
Theorem demo_entries_creates (v v' : Visit) (response : HttpResponse) :
  demo v = Ok (response, v') ->
  v' = v \/
  (ALLOW_GUEST_USERS = true /\ is_guest (visitor v) /\
   (exists flag, session v !! "has_demo_data" = Some flag /\ py_truthy flag = false) /\
   visitor v' =
     (if is_authenticated (account (visitor v)) then visitor v else create_temporary_user v) /\
   demo_entries_for v' = (demo_entries_for v ++ [username (account (visitor v'))])%list /\
   session v' !! "has_demo_data" = Some (PBool true) /\
   flashes v' = (flashes v ++ [gettext demo_message])%list).
Proof.
  assert (ALLOW_GUEST_USERS = true \/ ALLOW_GUEST_USERS = false) as [Hallow | Hallow]
    by (destruct ALLOW_GUEST_USERS; auto).
  - rewrite demo_entries_eq by exact Hallow.
    destruct (wants_demo_data v) as [wanted | e] eqn:Hw; [| discriminate].
    destruct (reverse "core:dashboard") as [url | e]; [| discriminate].
    intros H. injection H as _ <-.
    destruct wanted; [right | left; reflexivity].
    apply wants_demo_data_true in Hw. destruct Hw as [Hguest Hflag].
    split; [exact Hallow |]. split; [exact Hguest |]. split; [exact Hflag |].
    unfold with_demo_data.
    destruct (is_authenticated (account (visitor v))); simpl;
      repeat split; apply lookup_insert_eq.
  - unfold demo_entries. rewrite Hallow. simpl.
    destruct (reverse "software:features"); simpl; [| discriminate].
    intros H. injection H as _ <-. left. reflexivity.
Qed.

(** X21: [demo_entries] acts once: called again on the request a first call
    left, it returns the same redirect and changes nothing (the temporary
    users of [create_temporary_user] have a profile). *)
Theorem demo_entries_again (v v1 : Visit) (response : HttpResponse) :
  (forall v0, is_Some (userprofile (create_temporary_user v0))) ->
  demo v = Ok (response, v1) ->
  demo v1 = Ok (response, v1).
Proof.
  intros Hprofile.
  assert (ALLOW_GUEST_USERS = true \/ ALLOW_GUEST_USERS = false) as [Hallow | Hallow]
    by (destruct ALLOW_GUEST_USERS; auto).
  - rewrite !demo_entries_eq by exact Hallow.
    destruct (wants_demo_data v) as [wanted | e] eqn:Hw; [| discriminate].
    destruct (reverse "core:dashboard") as [url | e]; [| discriminate].
    intros H. injection H as <- <-.
    destruct wanted.
    + rewrite (wants_demo_data_after v Hprofile Hw). reflexivity.
    + rewrite Hw. reflexivity.
  - unfold demo_entries. rewrite Hallow. simpl.
    destruct (reverse "software:features"); simpl; [| discriminate].
    intros H. injection H as <- <-. reflexivity.
Qed.

(** X22: a registered user (authenticated, profile not temporary) is
    redirected to the dashboard with nothing created; the session is not
    even read, so a session without the key ['has_demo_data'] does no
    harm. *)
Theorem demo_entries_registered (v : Visit) (p : UserProfile) (url : string) :
  ALLOW_GUEST_USERS = true ->
  is_authenticated (account (visitor v)) = true ->
  userprofile (visitor v) = Some p -> is_temporary p = false ->
  reverse "core:dashboard" = Ok url ->
  demo v = Ok (HttpResponseRedirect url, v).
Proof.
  intros Hallow Hauth Hp Ht Hurl. rewrite demo_entries_eq by exact Hallow.
  unfold wants_demo_data, profile_is_temporary. rewrite Hauth, Hp. simpl.
  rewrite Ht, Hurl. reflexivity.
Qed.

(** X23: for a guest whose session has no key ['has_demo_data'] the view
    raises [KeyError]; it is the condition, which reads the session, that
    raises it. *)
Theorem demo_entries_no_session_key (v : Visit) :
  ALLOW_GUEST_USERS = true ->
  is_guest (visitor v) ->
  session v !! "has_demo_data" = None ->
  wants_demo_data v = Raise KeyError /\ demo v = Raise KeyError.
Proof.
  intros Hallow Hguest Hkey. rewrite demo_entries_eq by exact Hallow.
  assert (wants_demo_data v = Raise KeyError) as Hw.
  { unfold wants_demo_data, profile_is_temporary, session_getitem.
    destruct Hguest as [Hanon | (p & Hp & Ht)].
    - rewrite Hanon. simpl. rewrite Hkey. reflexivity.
    - destruct (is_authenticated (account (visitor v))); simpl.
      + rewrite Hp. simpl. rewrite Ht, Hkey. reflexivity.
      + rewrite Hkey. reflexivity. }
  rewrite Hw. split; reflexivity.
Qed.

End DemoFacts.

Lemma sample_first_visit : sample_demo_entries first_visit
  = Ok (HttpResponseRedirect "/dashboard", guest_visit).
Proof. vm_compute. reflexivity. Qed.

Lemma demo_entries_creates_witness :
  guest_visit = first_visit \/
  (true = true /\ is_guest (visitor first_visit) /\
   (exists flag, session first_visit !! "has_demo_data" = Some flag /\ py_truthy flag = false) /\
   visitor guest_visit =
     (if is_authenticated (account (visitor first_visit)) then visitor first_visit
      else sample_create_temporary_user first_visit) /\
   demo_entries_for guest_visit
   = (demo_entries_for first_visit ++ [username (account (visitor guest_visit))])%list /\
   session guest_visit !! "has_demo_data" = Some (PBool true) /\
   flashes guest_visit = (flashes first_visit ++ [sample_gettext demo_message])%list).
Proof.
  apply (demo_entries_creates sample_gettext sample_reverse true sample_create_temporary_user
           sample_login_session first_visit guest_visit (HttpResponseRedirect "/dashboard")).
  vm_compute. reflexivity.
Defined.

Lemma demo_entries_again_witness :
  sample_demo_entries guest_visit = Ok (HttpResponseRedirect "/dashboard", guest_visit).
Proof.
  apply (demo_entries_again sample_gettext sample_reverse true sample_create_temporary_user
           sample_login_session first_visit guest_visit (HttpResponseRedirect "/dashboard")).
  - intros v0. eexists. reflexivity.
  - vm_compute. reflexivity.
Defined.

Lemma demo_entries_registered_witness :
  sample_demo_entries registered_visit
  = Ok (HttpResponseRedirect "/dashboard", registered_visit).
Proof.
  apply (demo_entries_registered sample_gettext sample_reverse true
           sample_create_temporary_user sample_login_session registered_visit
           (mkUserProfile false) "/dashboard"); reflexivity.
Defined.

Lemma demo_entries_no_session_key_witness :
  wants_demo_data bare_visit = Raise KeyError /\
  sample_demo_entries bare_visit = Raise KeyError.
Proof.
  apply (demo_entries_no_session_key sample_gettext sample_reverse true
           sample_create_temporary_user sample_login_session bare_visit).
  - reflexivity.
  - left. reflexivity.
  - reflexivity.
Defined.

(** ** FeedbackClass *)

Section FeedbackFacts.

Context {Database CacheValue : Type}.
Variable gettext : string -> string.
Variable reverse : string -> Result Exception string.
Variable delivers : AdminMail -> bool.
Variable render_to_string : string -> SiteUser -> PyVal -> string.

(** X24: [form_valid] mails the administrators without [fail_silently]: a
    failed delivery raises and no redirect is returned; a delivered mail is
    the only one added, the visitor gets the success message and is
    redirected to the page registered as ['software:about-us']. *)
Theorem form_valid_delivery (cleaned_data : PyVal) (v : Visit)
    (w : World Database CacheValue) :
  (delivers (feedback_mail render_to_string cleaned_data v) = false ->
   exists e, form_valid gettext reverse delivers render_to_string cleaned_data v w = Raise e) /\
  (forall url,
     delivers (feedback_mail render_to_string cleaned_data v) = true ->
     reverse "software:about-us" = Ok url ->
     form_valid gettext reverse delivers render_to_string cleaned_data v w
     = Ok (HttpResponseRedirect url,
           messages_success v (gettext "Your feedback was successfully sent. Thank you!"),
           mkWorld (database w) (cache w)
             (admin_mails w ++ [feedback_mail render_to_string cleaned_data v])%list)).
Proof.
  unfold form_valid, mail_admins, feedback_mail. split.
  - intros ->. simpl. eauto.
  - intros url -> ->. reflexivity.
Qed.

End FeedbackFacts.

Lemma form_valid_delivery_witness :
  exists e,
    form_valid sample_gettext sample_reverse never_delivers
      (fun template u data => template) (PDict []) registered_visit sample_world
    = Raise e.
Proof.
  apply (proj1 (form_valid_delivery sample_gettext sample_reverse never_delivers
                  (fun template u data => template) (PDict []) registered_visit sample_world)).
  reflexivity.
Defined.

(** X25: the form without captcha is served only to visitors whose contact
    field is filled in with their mail address; an anonymous visitor gets
    the captcha form and an empty initial dictionary, and no profile is
    looked up for that. *)
Theorem feedback_form_for_visitor (v : Visit) :
  (get_form_class v = Ok FeedbackRegisteredForm ->
   py_getitem (get_initial v) "contact" = Ok (PStr (email (visitor v)))) /\
  (is_authenticated (account (visitor v)) = false ->
   get_form_class v = Ok FeedbackAnonymousForm /\ get_initial v = PDict []).
Proof.
  unfold get_form_class, get_initial, profile_is_temporary.
  destruct (is_authenticated (account (visitor v))); simpl.
  - split; [reflexivity | discriminate].
  - split; [discriminate | split; reflexivity].
Qed.

Lemma feedback_form_for_visitor_witness :
  py_getitem (get_initial registered_visit) "contact" = Ok (PStr "bob@example.org").
Proof.
  apply (proj1 (feedback_form_for_visitor registered_visit)). reflexivity.
Defined.
